(** * Ground-control session manager: a shallow embedding

    The development follows [mavlink_handler.py] (class [MavlinkHandler]) and
    [mission_planner.py] (classes [Waypoint] and [MissionPlanner]).

    - Python floats are IEEE binary64 numbers: the primitive floats.
    - Python dictionaries are finite maps with string keys.
    - Methods are state transformers over the handler object; a call
      returns, raises, or blocks for ever on a blocking read.
    - The link object [self.master] and the constants of the wire-protocol
      library are external: the link is an inbox of pending reads together
      with the trace of what was exchanged, the constants are a parameter. *)

From Stdlib Require Import ZArith Floats Uint63 String List Bool Lia.
From stdpp Require Import base gmap strings list.

Set Warnings "-inexact-float".

Open Scope Z_scope.
Open Scope string_scope.

(** ** Python values and exceptions *)

(** Values held by untyped containers (waypoint dictionaries, dataclass
    fields, arguments handed to the frame encoder). *)
Inductive value : Type :=
| VNone
| VBool (b : bool)
| VInt (z : Z)
| VFloat (f : float)
| VStr (s : string).

Inductive exn : Type :=
| NameError (name : string)
| AttributeError (attr : string)
| TypeError (what : string)
| LinkError.

(** Result of evaluating an expression that only reads. *)
Inductive result (A : Type) : Type :=
| Ok (a : A)
| Err (e : exn).
Arguments Ok {A} a.
Arguments Err {A} e.

(** [x == s] for a string literal [s]. *)
Definition py_eq_str (v : value) (s : string) : bool :=
  match v with
  | VStr t => String.eqb t s
  | _ => false
  end.

(** Truth value of an object, as tested by [if] and the conditional
    expression. *)
Definition py_truthy (v : value) : bool :=
  match v with
  | VNone => false
  | VBool b => b
  | VInt z => negb (Z.eqb z 0)
  | VFloat f => negb (PrimFloat.eqb f 0%float)
  | VStr s => negb (String.eqb s "")
  end.

(** Conversion of an integer to a float, as done by [int / float].  The
    fields divided in this program are at most 32 bits wide, where the
    conversion is exact; below 2^63 it rounds to nearest as CPython
    does. *)
Definition float_of_Z (z : Z) : float :=
  if Z.ltb z 0 then PrimFloat.opp (PrimFloat.of_uint63 (Uint63.of_Z (- z)))
  else PrimFloat.of_uint63 (Uint63.of_Z z).

(** [z / d] for an integer [z] and a float literal [d]. *)
Definition py_truediv (z : Z) (d : float) : float :=
  PrimFloat.div (float_of_Z z) d.

(** ** Frames delivered by the wire codec *)

(** A decoded inbound frame.  The codec fixes the type of every field; only
    the fields this program reads are kept.  [OTHER] stands for every frame
    kind the program has no name for. *)
Inductive message : Type :=
| HEARTBEAT (base_mode custom_mode : Z)
| GLOBAL_POSITION_INT (lat lon alt hdg : Z)
| VFR_HUD (groundspeed : float)
| SYS_STATUS (voltage_battery battery_remaining : Z)
| MISSION_ACK
| MISSION_REQUEST (target_system target_component seq : Z)
| PARAM_VALUE (param_id : string) (param_value : float)
              (param_count param_index : Z)
| PARAM_EXT_VALUE (param_id : string) (param_value : string)
                  (param_count param_index : Z)
| OTHER (kind : string).

Definition get_type (msg : message) : string :=
  match msg with
  | HEARTBEAT _ _ => "HEARTBEAT"
  | GLOBAL_POSITION_INT _ _ _ _ => "GLOBAL_POSITION_INT"
  | VFR_HUD _ => "VFR_HUD"
  | SYS_STATUS _ _ => "SYS_STATUS"
  | MISSION_ACK => "MISSION_ACK"
  | MISSION_REQUEST _ _ _ => "MISSION_REQUEST"
  | PARAM_VALUE _ _ _ _ => "PARAM_VALUE"
  | PARAM_EXT_VALUE _ _ _ _ => "PARAM_EXT_VALUE"
  | OTHER kind => kind
  end.

(** Attribute reads.  A frame that lacks the attribute raises
    [AttributeError], as attribute access on the decoded object does. *)
Definition attr_int (name : string) (msg : message) : result Z :=
  match name, msg with
  | "base_mode", HEARTBEAT b _ => Ok b
  | "custom_mode", HEARTBEAT _ c => Ok c
  | "lat", GLOBAL_POSITION_INT lat _ _ _ => Ok lat
  | "lon", GLOBAL_POSITION_INT _ lon _ _ => Ok lon
  | "alt", GLOBAL_POSITION_INT _ _ alt _ => Ok alt
  | "hdg", GLOBAL_POSITION_INT _ _ _ hdg => Ok hdg
  | "voltage_battery", SYS_STATUS v _ => Ok v
  | "battery_remaining", SYS_STATUS _ r => Ok r
  | "target_system", MISSION_REQUEST s _ _ => Ok s
  | "target_component", MISSION_REQUEST _ c _ => Ok c
  | "seq", MISSION_REQUEST _ _ q => Ok q
  | "param_count", PARAM_VALUE _ _ c _ => Ok c
  | "param_index", PARAM_VALUE _ _ _ i => Ok i
  | "param_count", PARAM_EXT_VALUE _ _ c _ => Ok c
  | "param_index", PARAM_EXT_VALUE _ _ _ i => Ok i
  | _, _ => Err (AttributeError name)
  end.

Definition attr_float (name : string) (msg : message) : result float :=
  match name, msg with
  | "groundspeed", VFR_HUD g => Ok g
  | _, _ => Err (AttributeError name)
  end.

(** ** Frames handed to the transport *)

(** [mission_item_send] is called with fourteen positional arguments; they
    are recorded in the order the caller passes them, the first ten under
    the encoder's parameter names. *)
Record mission_item : Type := MissionItem {
  item_target_system : value;
  item_target_component : value;
  item_seq : Z;
  item_frame : value;
  item_command : Z;
  item_current : Z;
  item_autocontinue : Z;
  item_param1 : value;
  item_param2 : value;
  item_param3 : value;
  item_arg11 : value;
  item_arg12 : value;
  item_arg13 : value;
  item_arg14 : Z
}.

Inductive frame : Type :=
| MISSION_CLEAR_ALL (target_system target_component : value)
| MISSION_COUNT (target_system target_component : value)
                (count : Z) (mission_type : Z)
| MISSION_ITEM (item : mission_item)
| SET_MODE (target_system : value) (base_mode : Z) (custom_mode : Z)
| PARAM_REQUEST_LIST.

(** ** The link object *)

(** One pending outcome of a read on the link. *)
Inductive rx : Type :=
| RxFrame (msg : message)
| RxFault.

(** What crossed the link, oldest first. *)
Inductive io : Type :=
| Sent (f : frame)
| Received (msg : message).

(** [self.master].  [inbox] holds what the next reads will find; [params]
    is the parameter table the link object keeps up to date with every
    PARAM_VALUE frame it reads; [tx_ok] tells whether a send succeeds. *)
Record mavfile : Type := Mavfile {
  inbox : list rx;
  trace : list io;
  params : gmap string float;
  tx_ok : bool
}.

(** ** Telemetry and handler state *)

Record TelemetryData : Type := Telemetry {
  latitude : float;
  longitude : float;
  altitude : float;
  heading : float;
  groundspeed : float;
  battery_voltage : float;
  battery_remaining : value;
  mode : string;
  armed : bool;
  system_status : string;
  timestamp : float
}.

(** [time_calls] counts the calls made to [time.time()] so far; it is not
    an attribute of the Python object.  Neither is [param_fetch_recent]: it
    tells whether the link object started a fetch of the parameters less
    than two seconds ago, in which case its [param_fetch_all] returns
    without asking again.  What a later call finds depends on the time that
    has passed; the flag a call leaves holds for the two seconds that
    follow it. *)
Record MavlinkHandler : Type := Handler {
  source_system : Z;
  source_component : Z;
  master : mavfile;
  telemetry : TelemetryData;
  connected : bool;
  heartbeat_timeout : float;
  last_heartbeat : float;
  vehicle_system : value;
  vehicle_component : value;
  parameters : gmap string float;
  time_calls : nat;
  param_fetch_recent : bool
}.

(** Constants and tables of the wire-protocol library.  The handler reads
    its mode table as the attribute [mode_mapping] of the module [mavutil]:
    [has_mode_mapping] tells whether the module has an attribute of that
    name at all, and [mode_mapping] is the table bound to it when it
    has. *)
Record mavlink_library : Type := MavlinkLibrary {
  MAV_MODE_FLAG_SAFETY_ARMED : Z;
  MAV_MODE_FLAG_CUSTOM_MODE_ENABLED : Z;
  MAV_FRAME_GLOBAL_RELATIVE_ALT : Z;
  MAV_MISSION_TYPE_MISSION : Z;
  MAV_CMD_NAV_WAYPOINT : Z;
  MAV_CMD_NAV_LOITER_TIME : Z;
  MAV_CMD_NAV_RETURN_TO_LAUNCH : Z;
  MAV_CMD_NAV_LAND : Z;
  MAV_CMD_NAV_TAKEOFF : Z;
  mode_mapping : list (string * Z);
  has_mode_mapping : bool
}.

(** Field updates. *)
Definition set_inbox (l : list rx) (lk : mavfile) : mavfile :=
  Mavfile l (trace lk) (params lk) (tx_ok lk).
Definition set_trace (t : list io) (lk : mavfile) : mavfile :=
  Mavfile (inbox lk) t (params lk) (tx_ok lk).
Definition set_params (p : gmap string float) (lk : mavfile) : mavfile :=
  Mavfile (inbox lk) (trace lk) p (tx_ok lk).

Definition set_master (lk : mavfile) (h : MavlinkHandler) : MavlinkHandler :=
  Handler (source_system h) (source_component h) lk (telemetry h)
    (connected h) (heartbeat_timeout h) (last_heartbeat h)
    (vehicle_system h) (vehicle_component h) (parameters h) (time_calls h)
    (param_fetch_recent h).
Definition set_telemetry (t : TelemetryData) (h : MavlinkHandler)
  : MavlinkHandler :=
  Handler (source_system h) (source_component h) (master h) t
    (connected h) (heartbeat_timeout h) (last_heartbeat h)
    (vehicle_system h) (vehicle_component h) (parameters h) (time_calls h)
    (param_fetch_recent h).
Definition set_connected (c : bool) (h : MavlinkHandler) : MavlinkHandler :=
  Handler (source_system h) (source_component h) (master h) (telemetry h)
    c (heartbeat_timeout h) (last_heartbeat h)
    (vehicle_system h) (vehicle_component h) (parameters h) (time_calls h)
    (param_fetch_recent h).
Definition set_last_heartbeat (t : float) (h : MavlinkHandler)
  : MavlinkHandler :=
  Handler (source_system h) (source_component h) (master h) (telemetry h)
    (connected h) (heartbeat_timeout h) t
    (vehicle_system h) (vehicle_component h) (parameters h) (time_calls h)
    (param_fetch_recent h).
Definition set_parameters (p : gmap string float) (h : MavlinkHandler)
  : MavlinkHandler :=
  Handler (source_system h) (source_component h) (master h) (telemetry h)
    (connected h) (heartbeat_timeout h) (last_heartbeat h)
    (vehicle_system h) (vehicle_component h) p (time_calls h)
    (param_fetch_recent h).
Definition set_time_calls (n : nat) (h : MavlinkHandler) : MavlinkHandler :=
  Handler (source_system h) (source_component h) (master h) (telemetry h)
    (connected h) (heartbeat_timeout h) (last_heartbeat h)
    (vehicle_system h) (vehicle_component h) (parameters h) n
    (param_fetch_recent h).
Definition set_param_fetch_recent (b : bool) (h : MavlinkHandler)
  : MavlinkHandler :=
  Handler (source_system h) (source_component h) (master h) (telemetry h)
    (connected h) (heartbeat_timeout h) (last_heartbeat h)
    (vehicle_system h) (vehicle_component h) (parameters h) (time_calls h)
    b.

Definition with_latitude (x : float) (t : TelemetryData) : TelemetryData :=
  Telemetry x (longitude t) (altitude t) (heading t) (groundspeed t)
    (battery_voltage t) (battery_remaining t) (mode t) (armed t)
    (system_status t) (timestamp t).
Definition with_longitude (x : float) (t : TelemetryData) : TelemetryData :=
  Telemetry (latitude t) x (altitude t) (heading t) (groundspeed t)
    (battery_voltage t) (battery_remaining t) (mode t) (armed t)
    (system_status t) (timestamp t).
Definition with_altitude (x : float) (t : TelemetryData) : TelemetryData :=
  Telemetry (latitude t) (longitude t) x (heading t) (groundspeed t)
    (battery_voltage t) (battery_remaining t) (mode t) (armed t)
    (system_status t) (timestamp t).
Definition with_heading (x : float) (t : TelemetryData) : TelemetryData :=
  Telemetry (latitude t) (longitude t) (altitude t) x (groundspeed t)
    (battery_voltage t) (battery_remaining t) (mode t) (armed t)
    (system_status t) (timestamp t).
Definition with_groundspeed (g : float) (t : TelemetryData) : TelemetryData :=
  Telemetry (latitude t) (longitude t) (altitude t) (heading t) g
    (battery_voltage t) (battery_remaining t) (mode t) (armed t)
    (system_status t) (timestamp t).
Definition with_battery_voltage (v : float) (t : TelemetryData)
  : TelemetryData :=
  Telemetry (latitude t) (longitude t) (altitude t) (heading t)
    (groundspeed t) v (battery_remaining t) (mode t) (armed t)
    (system_status t) (timestamp t).
Definition with_battery_remaining (r : value) (t : TelemetryData)
  : TelemetryData :=
  Telemetry (latitude t) (longitude t) (altitude t) (heading t)
    (groundspeed t) (battery_voltage t) r (mode t) (armed t)
    (system_status t) (timestamp t).
Definition with_armed (a : bool) (t : TelemetryData) : TelemetryData :=
  Telemetry (latitude t) (longitude t) (altitude t) (heading t)
    (groundspeed t) (battery_voltage t) (battery_remaining t) (mode t) a
    (system_status t) (timestamp t).
Definition with_timestamp (ts : float) (t : TelemetryData) : TelemetryData :=
  Telemetry (latitude t) (longitude t) (altitude t) (heading t)
    (groundspeed t) (battery_voltage t) (battery_remaining t) (mode t)
    (armed t) (system_status t) ts.
Definition with_mode (m : string) (t : TelemetryData) : TelemetryData :=
  Telemetry (latitude t) (longitude t) (altitude t) (heading t)
    (groundspeed t) (battery_voltage t) (battery_remaining t) m
    (armed t) (system_status t) (timestamp t).

(** ** Method calls as state transformers *)

(** A call started in a handler state returns a value, raises, or waits
    for ever on a read that nothing answers; each comes with the state the
    handler is left in. *)
Inductive outcome (A : Type) : Type :=
| Returned (a : A) (h : MavlinkHandler)
| Raised (e : exn) (h : MavlinkHandler)
| Blocked (h : MavlinkHandler).
Arguments Returned {A} a h.
Arguments Raised {A} e h.
Arguments Blocked {A} h.

Definition M (A : Type) : Type := MavlinkHandler -> outcome A.

#[global] Instance M_ret : MRet M := fun A a h => Returned a h.
#[global] Instance M_bind : MBind M := fun A B f c h =>
  match c h with
  | Returned a h' => f a h'
  | Raised e h' => Raised e h'
  | Blocked h' => Blocked h'
  end.

Definition raise {A : Type} (e : exn) : M A := fun h => Raised e h.
Definition lift {A : Type} (r : result A) : M A :=
  match r with
  | Ok a => mret a
  | Err e => raise e
  end.
Definition gets {A : Type} (f : MavlinkHandler -> A) : M A :=
  fun h => Returned (f h) h.
Definition modify (f : MavlinkHandler -> MavlinkHandler) : M unit :=
  fun h => Returned tt (f h).
(** An assignment to one attribute of [self.telemetry]. *)
Definition update_telemetry_data (f : TelemetryData -> TelemetryData)
  : M unit :=
  modify (fun h => set_telemetry (f (telemetry h)) h).

(** [try: body except Exception: handler]. *)
Definition try_except {A : Type} (body : M A) (handler : exn -> M A) : M A :=
  fun h =>
    match body h with
    | Raised e h' => handler e h'
    | o => o
    end.

(** [while True: body], where [body] answers [true] on [break].  Every
    loop of the program reads the link once per turn, so the number of
    pending reads bounds the number of turns. *)
Fixpoint while_true (turns : nat) (body : M bool) : M unit :=
  match turns with
  | O => fun h => Blocked h
  | S n => brk ← body; if (brk : bool) then mret tt else while_true n body
  end.

Definition pending_reads : M nat :=
  gets (fun h => S (length (inbox (master h)))).

(** ** The link operations *)

(** What the link object does with every frame it reads, handed on to the
    caller or not. *)
Definition post_message (msg : message) (lk : mavfile) : mavfile :=
  let lk' := set_trace (trace lk ++ [Received msg]) lk in
  match msg with
  | PARAM_VALUE id v _ _ => set_params (<[id := v]> (params lk')) lk'
  | _ => lk'
  end.

(** [recv_match(blocking=False)]. *)
Definition recv_match_nonblocking : M (option message) := fun h =>
  match inbox (master h) with
  | [] => Returned None h
  | RxFault :: rest => Raised LinkError (set_master (set_inbox rest (master h)) h)
  | RxFrame msg :: rest =>
      Returned (Some msg)
        (set_master (post_message msg (set_inbox rest (master h))) h)
  end.

Inductive scan : Type :=
| Found (msg : message) (lk : mavfile)
| Faulted (lk : mavfile)
| Starved (lk : mavfile).

(** Reads until a frame of one of the kinds [types] turns up; the frames
    passed over are posted and dropped. *)
Fixpoint recv_scan (types : list string) (pending : list rx) (lk : mavfile)
  : scan :=
  match pending with
  | [] => Starved (set_inbox [] lk)
  | RxFault :: rest => Faulted (set_inbox rest lk)
  | RxFrame msg :: rest =>
      let lk' := post_message msg (set_inbox rest lk) in
      if existsb (String.eqb (get_type msg)) types
      then Found msg lk'
      else recv_scan types rest lk'
  end.

(** [recv_match(type=types, blocking=True)]. *)
Definition recv_match (types : list string) : M message := fun h =>
  match recv_scan types (inbox (master h)) (master h) with
  | Found msg lk => Returned msg (set_master lk h)
  | Faulted lk => Raised LinkError (set_master lk h)
  | Starved lk => Blocked (set_master lk h)
  end.

(** [self.master.mav.<frame>_send(...)].  The encoder is taken to accept
    its arguments: values that do not fit the fields of the wire format,
    for which the real call raises, are not told apart from the others. *)
Definition send (f : frame) : M unit := fun h =>
  if tx_ok (master h)
  then Returned tt (set_master (set_trace (trace (master h) ++ [Sent f]) (master h)) h)
  else Raised LinkError h.

(** Frames handed to the transport so far. *)
Definition sent_frames (h : MavlinkHandler) : list frame :=
  omap (fun e => match e with Sent f => Some f | Received _ => None end)
       (trace (master h)).

Section Handler.

(** The wire-protocol library and the readings of the wall clock, in the
    order [time.time()] returns them. *)
Variable mavutil : mavlink_library.
Variable clock : nat -> float.

Definition time_time : M float := fun h =>
  Returned (clock (time_calls h)) (set_time_calls (S (time_calls h)) h).

(** Evaluation of [mavutil.mode_mapping]. *)
Definition mavutil_mode_mapping : result (list (string * Z)) :=
  if has_mode_mapping mavutil then Ok (mode_mapping mavutil)
  else Err (AttributeError "mode_mapping").

Definition _process_message (msg : message) : M unit :=
  let msg_type := get_type msg in
  if String.eqb msg_type "HEARTBEAT" then
    now ← time_time;
    modify (set_last_heartbeat now);;
    base_mode ← lift (attr_int "base_mode" msg);
    update_telemetry_data
      (with_armed (negb (Z.eqb (Z.land base_mode
                                  (MAV_MODE_FLAG_SAFETY_ARMED mavutil)) 0)));;
    now' ← time_time;
    update_telemetry_data (with_timestamp now');;
    mode_mapping ← lift mavutil_mode_mapping;
    mode_num ← lift (attr_int "custom_mode" msg);
    let mode_name :=
      map fst (List.filter (fun kv => Z.eqb (snd kv) mode_num)
                           mode_mapping) in
    update_telemetry_data
      (with_mode (match mode_name with k :: _ => k | [] => "UNKNOWN" end))
  else if String.eqb msg_type "GLOBAL_POSITION_INT" then
    lat ← lift (attr_int "lat" msg);
    update_telemetry_data (with_latitude (py_truediv lat 1e7));;
    lon ← lift (attr_int "lon" msg);
    update_telemetry_data (with_longitude (py_truediv lon 1e7));;
    alt ← lift (attr_int "alt" msg);
    update_telemetry_data (with_altitude (py_truediv alt 1000));;
    hdg ← lift (attr_int "hdg" msg);
    update_telemetry_data (with_heading (py_truediv hdg 100))
  else if String.eqb msg_type "VFR_HUD" then
    g ← lift (attr_float "groundspeed" msg);
    update_telemetry_data (with_groundspeed g)
  else if String.eqb msg_type "SYS_STATUS" then
    mv ← lift (attr_int "voltage_battery" msg);
    update_telemetry_data (with_battery_voltage (py_truediv mv 1000));;
    rem ← lift (attr_int "battery_remaining" msg);
    update_telemetry_data (with_battery_remaining (VInt rem))
  else mret tt.

(** The body of the [while True] loop of [update_telemetry]. *)
Definition update_telemetry_turn : M bool :=
  msg ← recv_match_nonblocking;
  match msg with
  | None => mret true
  | Some msg => _process_message msg;; mret false
  end.

Definition drain_link : M unit :=
  turns ← pending_reads;
  while_true turns update_telemetry_turn.

Definition update_telemetry : M bool :=
  c ← gets connected;
  if negb c then mret false
  else
    try_except
      (drain_link;;
       now ← time_time;
       last ← gets last_heartbeat;
       timeout ← gets heartbeat_timeout;
       if PrimFloat.ltb timeout (PrimFloat.sub now last)
       then modify (set_connected false);; mret false
       else mret true)
      (fun _ => modify (set_connected false);; mret false).

Definition set_mode (mode : string) : M bool :=
  c ← gets connected;
  if negb c then mret false
  else
    try_except
      (mode_mapping ← lift mavutil_mode_mapping;
       match List.find (fun kv => String.eqb (fst kv) mode) mode_mapping with
       | None => mret false
       | Some (_, mode_id) =>
           vehicle_system ← gets vehicle_system;
           send (SET_MODE vehicle_system
                   (MAV_MODE_FLAG_CUSTOM_MODE_ENABLED mavutil) mode_id);;
           mret true
       end)
      (fun _ => mret false).

(** The body of the loop that waits for the first item request. *)
Definition await_request_turn : M bool :=
  msg ← recv_match ["MISSION_REQUEST"];
  target_system ← lift (attr_int "target_system" msg);
  source_system ← gets source_system;
  if Z.eqb target_system source_system then
    target_component ← lift (attr_int "target_component" msg);
    source_component ← gets source_component;
    mret (Z.eqb target_component source_component)
  else mret false.

(** [wp.get(key, dflt)]. *)
Definition wp_get (wp : gmap string value) (key : string) (dflt : value)
  : value :=
  default dflt (wp !! key).

(** The arguments of [mission_item_send] for the waypoint [wp] at index
    [i]. *)
Definition waypoint_item (vehicle_system vehicle_component : value)
    (i : Z) (wp : gmap string value) : mission_item :=
  {| item_target_system := vehicle_system;
     item_target_component := vehicle_component;
     item_seq := i;
     item_frame :=
       wp_get wp "frame" (VInt (MAV_FRAME_GLOBAL_RELATIVE_ALT mavutil));
     item_command := MAV_CMD_NAV_WAYPOINT mavutil;
     item_current := 0;
     item_autocontinue := if Z.eqb i 0 then 1 else 0;
     item_param1 := wp_get wp "p1" (VInt 0);
     item_param2 := wp_get wp "p2" (VInt 0);
     item_param3 := wp_get wp "p3" (VInt 0);
     item_arg11 := wp_get wp "x" (VInt 0);
     item_arg12 := wp_get wp "y" (VInt 0);
     item_arg13 := wp_get wp "z" (VInt 10);
     item_arg14 := MAV_MISSION_TYPE_MISSION mavutil |}.

(** The [for i, wp in enumerate(waypoints)] loop, entered at index [i]. *)
Fixpoint send_waypoints (i : Z) (waypoints : list (gmap string value))
  : M unit :=
  match waypoints with
  | [] => mret tt
  | wp :: rest =>
      vehicle_system ← gets vehicle_system;
      vehicle_component ← gets vehicle_component;
      send (MISSION_ITEM
              (waypoint_item vehicle_system vehicle_component i wp));;
      msg ← recv_match ["MISSION_REQUEST"; "MISSION_ACK"];
      if String.eqb (get_type msg) "MISSION_ACK" then mret tt
      else send_waypoints (i + 1) rest
  end.

Definition upload_mission (waypoints : list (gmap string value)) : M bool :=
  c ← gets connected;
  if negb c then mret false
  else
    try_except
      (vehicle_system ← gets vehicle_system;
       vehicle_component ← gets vehicle_component;
       send (MISSION_CLEAR_ALL vehicle_system vehicle_component);;
       recv_match ["MISSION_ACK"];;
       send (MISSION_COUNT vehicle_system vehicle_component
               (Z.of_nat (length waypoints)) 0);;
       turns ← pending_reads;
       while_true turns await_request_turn;;
       send_waypoints 0 waypoints;;
       mret true)
      (fun _ => mret false).

(** The body of the loop that waits for the last parameter. *)
Definition get_parameters_turn : M bool :=
  msg ← recv_match ["PARAM_VALUE"; "PARAM_EXT_VALUE"];
  if String.eqb (get_type msg) "PARAM_VALUE" then
    param_count ← lift (attr_int "param_count" msg);
    if Z.ltb 0 param_count then
      param_index ← lift (attr_int "param_index" msg);
      mret (Z.eqb param_index (param_count - 1))
    else mret false
  else mret false.

(** [param_fetch_all] of the link object asks the vehicle for its
    parameter list, unless it did so less than two seconds ago. *)
Definition param_fetch_all : M unit :=
  recent ← gets param_fetch_recent;
  if (recent : bool) then mret tt
  else
    modify (set_param_fetch_recent true);;
    send PARAM_REQUEST_LIST.

(** The table handed back is the one the link object has kept. *)
Definition get_parameters : M (gmap string float) :=
  c ← gets connected;
  if negb c then mret ∅
  else
    try_except
      (param_fetch_all;;
       turns ← pending_reads;
       while_true turns get_parameters_turn;;
       table ← gets (fun h => params (master h));
       modify (set_parameters table);;
       gets parameters)
      (fun _ => mret ∅).

End Handler.

(** ** Waypoints *)

#[global] Instance result_ret : MRet result := fun A a => Ok a.
#[global] Instance result_bind : MBind result := fun A B f r =>
  match r with
  | Ok a => f a
  | Err e => Err e
  end.

Module Waypoint.

(** The dataclass.  Its annotations are not enforced, so a field holds
    whatever value the caller stored. *)
Record t : Type := mk {
  latitude : value;
  longitude : value;
  altitude : value;
  speed : value;
  hold_time : value;
  accept_radius : value;
  pass_radius : value;
  yaw_angle : value;
  waypoint_type : value;
  autocontinue : value
}.

Definition field_names : gset string :=
  list_to_set ["latitude"; "longitude"; "altitude"; "speed"; "hold_time";
               "accept_radius"; "pass_radius"; "yaw_angle"; "waypoint_type";
               "autocontinue"].

Definition to_dict (self : t) : gmap string value :=
  <["autocontinue" := autocontinue self]>
  (<["waypoint_type" := waypoint_type self]>
  (<["yaw_angle" := yaw_angle self]>
  (<["pass_radius" := pass_radius self]>
  (<["accept_radius" := accept_radius self]>
  (<["hold_time" := hold_time self]>
  (<["speed" := speed self]>
  (<["altitude" := altitude self]>
  (<["longitude" := longitude self]>
  (<["latitude" := latitude self]> ∅))))))))).

(** The call of the class on the unpacked dictionary: the generated
    [__init__] takes the ten fields as keyword
    arguments, the first three without a default, and refuses any other
    keyword. *)
Definition from_dict (data : gmap string value) : result t :=
  if negb (bool_decide (dom data ⊆ field_names))
  then Err (TypeError "__init__")
  else
    match data !! "latitude", data !! "longitude", data !! "altitude" with
    | Some la, Some lo, Some al =>
        Ok {| latitude := la;
              longitude := lo;
              altitude := al;
              speed := default (VFloat 0) (data !! "speed");
              hold_time := default (VInt 0) (data !! "hold_time");
              accept_radius := default (VFloat 5) (data !! "accept_radius");
              pass_radius := default (VFloat 2) (data !! "pass_radius");
              yaw_angle := default (VFloat 0) (data !! "yaw_angle");
              waypoint_type :=
                default (VStr "WAYPOINT") (data !! "waypoint_type");
              autocontinue := default (VBool true) (data !! "autocontinue") |}
    | _, _, _ => Err (TypeError "__init__")
    end.

End Waypoint.

(** ** The mission planner *)

(** [mav] is the handler the planner was built with; the planner is the
    only one to reach it in what follows. *)
Record MissionPlanner : Type := Planner {
  mav : MavlinkHandler;
  waypoints : list Waypoint.t;
  current_mission : string
}.

(** The names bound at the top level of [mission_planner.py]: its imports,
    its logger and its two classes. *)
Definition mission_planner_globals : list string :=
  ["json"; "logging"; "Path"; "Dict"; "List"; "Optional"; "Any"; "Union";
   "dataclass"; "asdict"; "time"; "logger"; "Waypoint"; "MissionPlanner"].

Section Planner.

Variable mavutil : mavlink_library.

(** [globals] are the names bound in the module the method runs in. *)
Variable globals : list string.

(** Evaluation of [mavutil.mavlink.<name>] in the planner's module. *)
Definition mavutil_mavlink (const : mavlink_library -> Z) : result value :=
  if existsb (String.eqb "mavutil") globals
  then Ok (VInt (const mavutil))
  else Err (NameError "mavutil").

(** One turn of the conversion loop: the dictionary built for [wp]. *)
Definition mav_waypoint (wp : Waypoint.t) : result (gmap string value) :=
  let mav_wp : gmap string value :=
    <["autocontinue" :=
        VInt (if py_truthy (Waypoint.autocontinue wp) then 1 else 0)]>
    (<["frame" := VInt 3]>
    (<["p4" := Waypoint.yaw_angle wp]>
    (<["p3" := Waypoint.pass_radius wp]>
    (<["p2" := Waypoint.accept_radius wp]>
    (<["p1" := Waypoint.speed wp]>
    (<["z" := Waypoint.altitude wp]>
    (<["y" := Waypoint.longitude wp]>
    (<["x" := Waypoint.latitude wp]> ∅)))))))) in
  if py_eq_str (Waypoint.waypoint_type wp) "TAKEOFF" then
    c ← mavutil_mavlink MAV_CMD_NAV_TAKEOFF;
    mret (<["command" := c]> mav_wp)
  else if py_eq_str (Waypoint.waypoint_type wp) "LAND" then
    c ← mavutil_mavlink MAV_CMD_NAV_LAND;
    mret (<["command" := c]> mav_wp)
  else if py_eq_str (Waypoint.waypoint_type wp) "RETURN_TO_LAUNCH" then
    c ← mavutil_mavlink MAV_CMD_NAV_RETURN_TO_LAUNCH;
    mret (<["command" := c]> mav_wp)
  else if py_eq_str (Waypoint.waypoint_type wp) "LOITER_TIME" then
    c ← mavutil_mavlink MAV_CMD_NAV_LOITER_TIME;
    mret (<["p1" := Waypoint.hold_time wp]> (<["command" := c]> mav_wp))
  else
    c ← mavutil_mavlink MAV_CMD_NAV_WAYPOINT;
    mret (<["command" := c]> mav_wp).

(** The conversion loop: [mav_waypoints] holds the dictionaries in the
    order of the waypoints. *)
Fixpoint mav_waypoints (wps : list Waypoint.t)
  : result (list (gmap string value)) :=
  match wps with
  | [] => mret []
  | wp :: rest =>
      mav_wp ← mav_waypoint wp;
      tail ← mav_waypoints rest;
      mret (mav_wp :: tail)
  end.

(** The outcome carries the state the handler [self.mav] is left in; the
    planner's own attributes are not assigned. *)
Definition upload_mission_to_vehicle (self : MissionPlanner) : outcome bool :=
  match waypoints self with
  | [] => Returned false (mav self)
  | _ :: _ =>
      match mav_waypoints (waypoints self) with
      | Err e => Raised e (mav self)
      | Ok mav_wps => upload_mission mavutil mav_wps (mav self)
      end
  end.

End Planner.

(** ** Data for the examples *)

(** The library as it ships: the constants of the common dialect, and a
    module [mavutil] with no attribute [mode_mapping] (it has
    [mode_mapping_apm], [mode_mapping_acm] and the like, the functions
    [mode_mapping_byname] and [mode_mapping_bynumber], and a method
    [mode_mapping] of the link object). *)
Definition common_dialect : mavlink_library :=
  {| MAV_MODE_FLAG_SAFETY_ARMED := 128;
     MAV_MODE_FLAG_CUSTOM_MODE_ENABLED := 1;
     MAV_FRAME_GLOBAL_RELATIVE_ALT := 3;
     MAV_MISSION_TYPE_MISSION := 0;
     MAV_CMD_NAV_WAYPOINT := 16;
     MAV_CMD_NAV_LOITER_TIME := 19;
     MAV_CMD_NAV_RETURN_TO_LAUNCH := 20;
     MAV_CMD_NAV_LAND := 21;
     MAV_CMD_NAV_TAKEOFF := 22;
     mode_mapping := [];
     has_mode_mapping := false |}.

Definition fresh_telemetry : TelemetryData :=
  {| latitude := 0; longitude := 0; altitude := 0; heading := 0;
     groundspeed := 0; battery_voltage := 0; battery_remaining := VFloat 0;
     mode := "UNKNOWN"; armed := false; system_status := "UNKNOWN";
     timestamp := 0 |}.

(** A station with the default identity (system 255, component 190),
    linked to vehicle 1/1, whose link holds the pending reads [pending]. *)
Definition station (pending : list rx) (up : bool) : MavlinkHandler :=
  {| source_system := 255;
     source_component := 190;
     master := {| inbox := pending; trace := []; params := ∅; tx_ok := true |};
     telemetry := fresh_telemetry;
     connected := up;
     heartbeat_timeout := 3;
     last_heartbeat := 100;
     vehicle_system := VInt 1;
     vehicle_component := VInt 1;
     parameters := ∅;
     time_calls := 0;
     param_fetch_recent := false |}.

(** A clock that reads 101 s at every call, and one that reads 104 s. *)
Definition clock_101 : nat -> float := fun _ => 101%float.
Definition clock_104 : nat -> float := fun _ => 104%float.

(** A take-off waypoint and a loiter waypoint with a hold time of 30 s. *)
Definition takeoff_waypoint : Waypoint.t :=
  {| Waypoint.latitude := VFloat 12.5;
     Waypoint.longitude := VFloat 77.5;
     Waypoint.altitude := VFloat 20;
     Waypoint.speed := VFloat 0;
     Waypoint.hold_time := VInt 0;
     Waypoint.accept_radius := VFloat 5;
     Waypoint.pass_radius := VFloat 2;
     Waypoint.yaw_angle := VFloat 0;
     Waypoint.waypoint_type := VStr "TAKEOFF";
     Waypoint.autocontinue := VBool true |}.

Definition loiter_waypoint : Waypoint.t :=
  {| Waypoint.latitude := VFloat 12.5;
     Waypoint.longitude := VFloat 77.5;
     Waypoint.altitude := VFloat 20;
     Waypoint.speed := VFloat 4;
     Waypoint.hold_time := VInt 30;
     Waypoint.accept_radius := VFloat 5;
     Waypoint.pass_radius := VFloat 2;
     Waypoint.yaw_angle := VFloat 0;
     Waypoint.waypoint_type := VStr "LOITER_TIME";
     Waypoint.autocontinue := VBool true |}.

(** What a vehicle that follows the protocol answers to the upload of one
    item by the default station. *)
Definition one_item_answers : list rx :=
  [RxFrame MISSION_ACK; RxFrame (MISSION_REQUEST 255 190 0);
   RxFrame MISSION_ACK].

(** Two waypoint dictionaries as the planner builds them. *)
Definition first_leg : gmap string value :=
  <["command" := VInt 22]> (<["z" := VFloat 20]>
  (<["y" := VFloat 77.5]> (<["x" := VFloat 12.5]> ∅))).

Definition second_leg : gmap string value :=
  <["command" := VInt 16]> (<["z" := VFloat 30]>
  (<["y" := VFloat 77.75]> (<["x" := VFloat 12.75]> ∅))).

(** ** Editing the mission *)

Definition set_waypoints (wps : list Waypoint.t) (self : MissionPlanner)
  : MissionPlanner :=
  Planner (mav self) wps (current_mission self).

(** [append], then the index of the last element. *)
Definition add_waypoint (waypoint : Waypoint.t) (self : MissionPlanner)
  : Z * MissionPlanner :=
  let self := set_waypoints (waypoints self ++ [waypoint]) self in
  (Z.of_nat (length (waypoints self)) - 1, self).

(** Within the bounds tested, [insert(index, waypoint)] puts the waypoint
    before the element at [index], at the end when [index] is the
    length. *)
Definition insert_waypoint (index : Z) (waypoint : Waypoint.t)
    (self : MissionPlanner) : bool * MissionPlanner :=
  if Z.leb 0 index && Z.leb index (Z.of_nat (length (waypoints self)))
  then (true,
        set_waypoints
          (take (Z.to_nat index) (waypoints self)
           ++ waypoint :: drop (Z.to_nat index) (waypoints self)) self)
  else (false, self).

(** Within the bounds tested, [pop(index)] removes the element at
    [index]. *)
Definition remove_waypoint (index : Z) (self : MissionPlanner)
  : bool * MissionPlanner :=
  if Z.leb 0 index && Z.ltb index (Z.of_nat (length (waypoints self)))
  then (true, set_waypoints (delete (Z.to_nat index) (waypoints self)) self)
  else (false, self).

(** ** Names of the mission files *)

(** [s.endswith(suffix)]. *)
Definition endswith (s suffix : string) : bool :=
  let n := String.length s in
  let m := String.length suffix in
  Nat.leb m n && String.eqb (substring (n - m) m s) suffix.

(** The name [save_mission] joins to the mission directory; [filename] is
    [None] when the argument is left out. *)
Definition save_mission_filename (self : MissionPlanner)
    (filename : option string) : string :=
  match filename with
  | None => current_mission self ++ ".json"
  | Some filename =>
      if negb (py_truthy (VStr filename))
      then current_mission self ++ ".json"
      else if negb (endswith filename ".json") then filename ++ ".json"
      else filename
  end.

(** The name [load_mission] joins to the mission directory. *)
Definition load_mission_filename (filename : string) : string :=
  if negb (endswith filename ".json") then filename ++ ".json"
  else filename.

(** ** Opening the session *)

Definition set_vehicle_system (v : value) (h : MavlinkHandler)
  : MavlinkHandler :=
  Handler (source_system h) (source_component h) (master h) (telemetry h)
    (connected h) (heartbeat_timeout h) (last_heartbeat h)
    v (vehicle_component h) (parameters h) (time_calls h)
    (param_fetch_recent h).
Definition set_vehicle_component (v : value) (h : MavlinkHandler)
  : MavlinkHandler :=
  Handler (source_system h) (source_component h) (master h) (telemetry h)
    (connected h) (heartbeat_timeout h) (last_heartbeat h)
    (vehicle_system h) v (parameters h) (time_calls h)
    (param_fetch_recent h).

(** The link object built by [mavutil.mavlink_connection], with the
    attributes [mav.srcSystem] and [mav.srcComponent] of its sender. *)
Record connection : Type := Connection {
  link : mavfile;
  srcSystem : value;
  srcComponent : value
}.

Section Connect.

Variable clock : nat -> float.

(** What [mavutil.mavlink_connection] answers when called with the
    connection string, the baud rate and the identity of the handler: a
    link object, or an exception. *)
Variable mavlink_connection : result connection.

(** [wait_heartbeat()]: a blocking read of the next HEARTBEAT frame. *)
Definition wait_heartbeat : M message := recv_match ["HEARTBEAT"].

Definition connect : M bool :=
  try_except
    (conn ← lift mavlink_connection;
     modify (fun h => set_param_fetch_recent false (set_master (link conn) h));;
     wait_heartbeat;;
     modify (set_connected true);;
     now ← time_time clock;
     modify (set_last_heartbeat now);;
     modify (set_vehicle_system (srcSystem conn));;
     modify (set_vehicle_component (srcComponent conn));;
     mret true)
    (fun _ => modify (set_connected false);; mret false).

End Connect.

(** * Vocabulary of the statements *)

(** The kinds the decoder has a branch for. *)
Definition known_kinds : list string :=
  ["HEARTBEAT"; "GLOBAL_POSITION_INT"; "VFR_HUD"; "SYS_STATUS"].

(** The kinds the codec decodes into a frame of their own; [OTHER] is for
    the rest. *)
Definition codec_kinds : list string :=
  ["HEARTBEAT"; "GLOBAL_POSITION_INT"; "VFR_HUD"; "SYS_STATUS";
   "MISSION_ACK"; "MISSION_REQUEST"; "PARAM_VALUE"; "PARAM_EXT_VALUE"].

(** A frame as the codec builds it: the name of a kind that has a frame
    of its own is carried by that frame only. *)
Definition well_formed (msg : message) : Prop :=
  match msg with
  | OTHER kind => ~ In kind codec_kinds
  | _ => True
  end.

(** The handler [h0] with a link that accepts sends and holds the given
    inbox, trace and parameter table. *)
Definition linked (h0 : MavlinkHandler) (pending : list rx) (tr : list io)
    (ps : gmap string float) : MavlinkHandler :=
  set_master (Mavfile pending tr ps true) h0.

(** The parameter table after the link has read [msg]. *)
Definition absorb (ps : gmap string float) (msg : message)
  : gmap string float :=
  match msg with
  | PARAM_VALUE id v _ _ => <[id := v]> ps
  | _ => ps
  end.

(** The test that ends the wait: a PARAM_VALUE frame whose index is its
    count minus one. *)
Definition is_terminal (msg : message) : bool :=
  match msg with
  | PARAM_VALUE _ _ count index => Z.ltb 0 count && Z.eqb index (count - 1)
  | _ => false
  end.

(** A frame the wait for the last parameter reads before it goes on. *)
Definition passes (msg : message) : Prop :=
  well_formed msg /\ is_terminal msg = false.

(** The kinds the wait for the last parameter asks the link for. *)
Definition param_kinds : list string := ["PARAM_VALUE"; "PARAM_EXT_VALUE"].

(** An item request addressed to the station. *)
Definition addressed (h0 : MavlinkHandler) (msg : message) : bool :=
  match msg with
  | MISSION_REQUEST ts tc _ =>
      Z.eqb ts (source_system h0) && Z.eqb tc (source_component h0)
  | _ => false
  end.

(** A frame the wait for the first request reads and drops: any frame of
    the codec that is not an item request addressed to the station. *)
Definition stray (h0 : MavlinkHandler) (msg : message) : Prop :=
  well_formed msg /\ addressed h0 msg = false.

(** Sequence numbers of the items sent, and indices of the requests read,
    in a piece of trace. *)
Definition items_sent (tr : list io) : list Z :=
  omap (fun e => match e with
                 | Sent (MISSION_ITEM item) => Some (item_seq item)
                 | _ => None
                 end) tr.

Definition requests_read (tr : list io) : list Z :=
  omap (fun e => match e with
                 | Received (MISSION_REQUEST _ _ q) => Some q
                 | _ => None
                 end) tr.

(** The indices [i], [i + 1], ..., [i + n - 1]. *)
Fixpoint indices (i : Z) (n : nat) : list Z :=
  match n with
  | O => []
  | S m => i :: indices (i + 1) m
  end.

(** In the trace, an item is sent in answer to a request only when the
    request is addressed to the station. *)
Definition answers_only_own_requests (h0 : MavlinkHandler) (tr : list io)
  : Prop :=
  forall (pre post : list io) (ts tc q : Z) (item : mission_item),
    tr = (pre ++ Received (MISSION_REQUEST ts tc q)
              :: Sent (MISSION_ITEM item) :: post)%list ->
    addressed h0 (MISSION_REQUEST ts tc q) = true.

(** The last event of the trace is the reading of an acknowledgment. *)
Definition ends_with_ack (tr : list io) : Prop :=
  last tr = Some (Received MISSION_ACK).

(** What [param_fetch_all] hands to the transport when the handler is in
    state [h]: the list request, unless the link asked less than two
    seconds ago. *)
Definition list_request (h : MavlinkHandler) : list io :=
  if param_fetch_recent h then [] else [Sent PARAM_REQUEST_LIST].

(** The state a call leaves the handler in, however it ends. *)
Definition final_state {A : Type} (o : outcome A) : MavlinkHandler :=
  match o with
  | Returned _ h => h
  | Raised _ h => h
  | Blocked h => h
  end.

(** The fields of a waypoint that have a default, with their defaults. *)
Definition field_defaults : gmap string value :=
  <["autocontinue" := VBool true]>
  (<["waypoint_type" := VStr "WAYPOINT"]>
  (<["yaw_angle" := VFloat 0]>
  (<["pass_radius" := VFloat 2]>
  (<["accept_radius" := VFloat 5]>
  (<["hold_time" := VInt 0]>
  (<["speed" := VFloat 0]> ∅)))))).

(** The fields of a waypoint without a default. *)
Definition required_fields : gset string :=
  list_to_set ["latitude"; "longitude"; "altitude"].

(** The link a scan leaves behind. *)
Definition scan_link (s : scan) : mavfile :=
  match s with
  | Found _ lk => lk
  | Faulted lk => lk
  | Starved lk => lk
  end.

(** [c] relates every state it is started in to the state it ends in,
    whether it returns, raises or blocks. *)
Definition respects {A : Type}
    (R : MavlinkHandler -> MavlinkHandler -> Prop) (c : M A) : Prop :=
  forall h, R h (final_state (c h)).

(** Between [h] and [h'] the log of the link grew by events that all
    satisfy [Q]. *)
Definition grows (Q : io -> Prop) (h h' : MavlinkHandler) : Prop :=
  exists new : list io,
    trace (master h') = (trace (master h) ++ new)%list /\ Forall Q new.

(** What tells whether the session is up, what was last decoded, and whom
    the commands are addressed to. *)
Definition status_kept (h h' : MavlinkHandler) : Prop :=
  connected h' = connected h /\
  telemetry h' = telemetry h /\
  last_heartbeat h' = last_heartbeat h /\
  vehicle_system h' = vehicle_system h /\
  vehicle_component h' = vehicle_component h.

(** Events of the log, by kind. *)
Definition is_read (e : io) : Prop :=
  match e with
  | Received _ => True
  | Sent _ => False
  end.

Definition no_item (e : io) : Prop :=
  match e with
  | Sent (MISSION_ITEM _) => False
  | _ => True
  end.

(** Between [h] and [h'] the items [i], [i + 1], ..., at most [n] of them,
    were sent in this order. *)
Definition items_from (i : Z) (n : nat) (h h' : MavlinkHandler) : Prop :=
  exists (new : list io) (k : nat),
    trace (master h') = (trace (master h) ++ new)%list /\
    (k <= n)%nat /\
    items_sent new = indices i k.

(** Two waypoint dictionaries with the same entries, or the same lack of
    an entry, under the keys [keys]. *)
Definition agree_on (keys : list string) (wp wp' : gmap string value)
  : Prop :=
  Forall (fun k => wp !! k = wp' !! k) keys.

(** The keys of a waypoint dictionary the upload reads. *)
Definition item_keys : list string :=
  ["frame"; "p1"; "p2"; "p3"; "x"; "y"; "z"].

(** * Properties *)

(** Unfolds the plumbing of [M] so that a call computes. *)
Ltac run_M :=
  unfold time_time, modify, update_telemetry_data, gets, raise, lift,
    try_except, pending_reads, mbind, M_bind, mret, M_ret; cbn.

(** ** The telemetry decoder *)

Lemma process_message_skip :
  forall (mavutil : mavlink_library) (clock : nat -> float)
         (msg : message) (h : MavlinkHandler),
    ~ In (get_type msg) known_kinds ->
    _process_message mavutil clock msg h = Returned tt h.
Proof.
  intros mavutil clock msg h Hkind.
  unfold _process_message; cbv zeta.
  assert (Hne : forall k, In k known_kinds ->
                          String.eqb (get_type msg) k = false).
  { intros k Hk. apply String.eqb_neq. intros E. apply Hkind.
    rewrite E. exact Hk. }
  rewrite !Hne by (unfold known_kinds; simpl; tauto).
  reflexivity.
Qed.

(** C5: a frame whose kind is none of HEARTBEAT, GLOBAL_POSITION_INT,
    VFR_HUD and SYS_STATUS is processed without failure and leaves the
    handler, hence every field of the telemetry snapshot, as it was. *)
Theorem process_unknown_kind_ignored :
  forall (mavutil : mavlink_library) (clock : nat -> float)
         (msg : message) (h : MavlinkHandler),
    ~ In (get_type msg) known_kinds ->
    _process_message mavutil clock msg h = Returned tt h /\
    forall h' : MavlinkHandler,
      _process_message mavutil clock msg h = Returned tt h' ->
      telemetry h' = telemetry h.
Proof.
  intros mavutil clock msg h Hkind.
  rewrite (process_message_skip mavutil clock msg h Hkind).
  split; [reflexivity |].
  intros h' E. injection E as <-. reflexivity.
Qed.

Lemma process_unknown_kind_ignored_witness :
  ~ In (get_type (OTHER "ATTITUDE")) known_kinds /\
  _process_message common_dialect clock_101 (OTHER "ATTITUDE")
    (station [] true) = Returned tt (station [] true).
Proof.
  assert (H : ~ In (get_type (OTHER "ATTITUDE")) known_kinds).
  { simpl. intros [H | [H | [H | [H | []]]]]; discriminate H. }
  split; [exact H |].
  apply (process_unknown_kind_ignored common_dialect clock_101
           (OTHER "ATTITUDE") (station [] true) H).
Defined.

(** C4: a GLOBAL_POSITION_INT frame, with fields in the ranges of the wire
    format, is processed without failure; in the handler it leaves, the
    snapshot's latitude and longitude are the raw integer divided by 1e7,
    its altitude the raw value divided by 1000 and its heading the raw
    value divided by 100; the other fields of the snapshot and the rest of
    the handler are as before; raw latitude 123456789 gives a latitude
    within 1e-7 of 12.3456789 and raw altitude 15000 gives 15.0. *)
Theorem position_frame_decoded :
  forall (mavutil : mavlink_library) (clock : nat -> float)
         (lat lon alt hdg : Z) (h : MavlinkHandler),
    - 2 ^ 31 <= lat < 2 ^ 31 ->
    - 2 ^ 31 <= lon < 2 ^ 31 ->
    - 2 ^ 31 <= alt < 2 ^ 31 ->
    0 <= hdg < 2 ^ 16 ->
    exists h' : MavlinkHandler,
      _process_message mavutil clock (GLOBAL_POSITION_INT lat lon alt hdg) h
        = Returned tt h' /\
      latitude (telemetry h') = PrimFloat.div (float_of_Z lat) 1e7 /\
      longitude (telemetry h') = PrimFloat.div (float_of_Z lon) 1e7 /\
      altitude (telemetry h') = PrimFloat.div (float_of_Z alt) 1000 /\
      heading (telemetry h') = PrimFloat.div (float_of_Z hdg) 100 /\
      groundspeed (telemetry h') = groundspeed (telemetry h) /\
      battery_voltage (telemetry h') = battery_voltage (telemetry h) /\
      battery_remaining (telemetry h') = battery_remaining (telemetry h) /\
      mode (telemetry h') = mode (telemetry h) /\
      armed (telemetry h') = armed (telemetry h) /\
      system_status (telemetry h') = system_status (telemetry h) /\
      timestamp (telemetry h') = timestamp (telemetry h) /\
      master h' = master h /\
      connected h' = connected h /\
      last_heartbeat h' = last_heartbeat h /\
      time_calls h' = time_calls h /\
      (lat = 123456789 ->
       PrimFloat.leb
         (PrimFloat.abs (PrimFloat.sub (latitude (telemetry h')) 12.3456789))
         1e-7
       = true) /\
      (alt = 15000 -> altitude (telemetry h') = 15%float).
Proof.
  intros mavutil clock lat lon alt hdg h _ _ _ _.
  eexists. split; [reflexivity |].
  cbn. repeat (split; [reflexivity |]).
  split; intros ->; reflexivity.
Qed.

Lemma position_frame_decoded_witness :
  exists h' : MavlinkHandler,
    _process_message common_dialect clock_101
      (GLOBAL_POSITION_INT 123456789 (-987654321) 15000 9000)
      (station [] true) = Returned tt h' /\
    latitude (telemetry h') = 12.3456789%float /\
    longitude (telemetry h') = (-98.7654321)%float /\
    altitude (telemetry h') = 15%float /\
    heading (telemetry h') = 90%float.
Proof.
  destruct (position_frame_decoded common_dialect clock_101
              123456789 (-987654321) 15000 9000 (station [] true))
    as (h' & Hrun & Hlat & Hlon & Halt & Hhdg & _); [lia | lia | lia | lia |].
  exists h'. split; [exact Hrun |].
  rewrite Hlat, Hlon, Halt, Hhdg. repeat split; reflexivity.
Defined.

(** ** Polling the link *)

Lemma inbox_post_message :
  forall (msg : message) (lk : mavfile),
    inbox (post_message msg lk) = inbox lk.
Proof. intros msg lk. destruct msg; reflexivity. Qed.

Lemma while_true_step :
  forall (n : nat) (body : M bool) (h : MavlinkHandler),
    while_true (S n) body h =
    match body h with
    | Returned true h' => Returned tt h'
    | Returned false h' => while_true n body h'
    | Raised e h' => Raised e h'
    | Blocked h' => Blocked h'
    end.
Proof.
  intros n body h. cbn. unfold mbind, M_bind.
  destruct (body h) as [[|] h' | e h' | h']; reflexivity.
Qed.

Lemma turn_on_empty :
  forall (mavutil : mavlink_library) (clock : nat -> float)
         (h : MavlinkHandler),
    inbox (master h) = [] ->
    update_telemetry_turn mavutil clock h = Returned true h.
Proof.
  intros mavutil clock h Hin.
  unfold update_telemetry_turn, recv_match_nonblocking. run_M.
  rewrite Hin. reflexivity.
Qed.

Lemma turn_on_fault :
  forall (mavutil : mavlink_library) (clock : nat -> float)
         (h : MavlinkHandler) (rest : list rx),
    inbox (master h) = RxFault :: rest ->
    update_telemetry_turn mavutil clock h
    = Raised LinkError (set_master (set_inbox rest (master h)) h).
Proof.
  intros mavutil clock h rest Hin.
  unfold update_telemetry_turn, recv_match_nonblocking. run_M.
  rewrite Hin. reflexivity.
Qed.

Lemma turn_on_frame :
  forall (mavutil : mavlink_library) (clock : nat -> float)
         (h : MavlinkHandler) (msg : message) (rest : list rx),
    inbox (master h) = RxFrame msg :: rest ->
    update_telemetry_turn mavutil clock h =
    match _process_message mavutil clock msg
            (set_master (post_message msg (set_inbox rest (master h))) h)
    with
    | Returned _ h' => Returned false h'
    | Raised e h' => Raised e h'
    | Blocked h' => Blocked h'
    end.
Proof.
  intros mavutil clock h msg rest Hin.
  unfold update_telemetry_turn, recv_match_nonblocking. run_M.
  rewrite Hin. reflexivity.
Qed.

Lemma drain_link_unfold :
  forall (mavutil : mavlink_library) (clock : nat -> float)
         (h : MavlinkHandler),
    drain_link mavutil clock h =
    while_true (S (length (inbox (master h))))
      (update_telemetry_turn mavutil clock) h.
Proof. reflexivity. Qed.

Lemma update_telemetry_unfold :
  forall (mavutil : mavlink_library) (clock : nat -> float)
         (h : MavlinkHandler),
    connected h = true ->
    update_telemetry mavutil clock h =
    match drain_link mavutil clock h with
    | Returned _ h1 =>
        if PrimFloat.ltb (heartbeat_timeout h1)
             (PrimFloat.sub (clock (time_calls h1)) (last_heartbeat h1))
        then Returned false
               (set_connected false (set_time_calls (S (time_calls h1)) h1))
        else Returned true (set_time_calls (S (time_calls h1)) h1)
    | Raised _ h1 => Returned false (set_connected false h1)
    | Blocked h1 => Blocked h1
    end.
Proof.
  intros mavutil clock h Hc.
  unfold update_telemetry, try_except, gets, mbind, M_bind.
  rewrite Hc. cbn [negb].
  destruct (drain_link mavutil clock h) as [[] h1 | e h1 | h1];
    try reflexivity.
  unfold time_time, mret, M_ret, modify. cbn.
  destruct (PrimFloat.ltb _ _); reflexivity.
Qed.

(** C6: a poll that reads a heartbeat fails.  With the library as it
    ships, a connected handler whose last heartbeat is one second old
    (timeout 3 s) and whose link holds one HEARTBEAT frame and no read
    fault answers failure and clears [connected]: the decoder refreshes the
    time of the last heartbeat, the armed flag and the timestamp, then
    reads [mavutil.mode_mapping], which the module does not have, and the
    AttributeError lands in the handler of the poll.  The same handler
    with nothing to read answers success. *)
Theorem poll_fails_on_heartbeat :
  (exists h',
     update_telemetry common_dialect clock_101
       (station [RxFrame (HEARTBEAT 209 3)] true) = Returned false h' /\
     connected h' = false /\
     inbox (master h') = [] /\
     last_heartbeat h' = 101%float /\
     PrimFloat.ltb (heartbeat_timeout h')
       (PrimFloat.sub 101 (last_heartbeat h')) = false /\
     armed (telemetry h') = true /\
     mode (telemetry h') = "UNKNOWN") /\
  (exists h',
     update_telemetry common_dialect clock_101 (station [] true)
     = Returned true h' /\
     connected h' = true).
Proof.
  split; eexists; (split; [vm_compute; reflexivity | repeat split]).
Qed.

(** ** Commands *)




(** ** Waypoint serialization *)

Lemma to_dict_keys :
  forall w : Waypoint.t, dom (Waypoint.to_dict w) ⊆ Waypoint.field_names.
Proof.
  intros w. unfold Waypoint.to_dict, Waypoint.field_names.
  rewrite !dom_insert_L, dom_empty_L. set_solver.
Qed.

(** C10: rebuilding a waypoint from its dictionary gives the waypoint back,
    all ten fields included. *)
Theorem waypoint_dict_roundtrip :
  forall w : Waypoint.t, Waypoint.from_dict (Waypoint.to_dict w) = Ok w.
Proof.
  intros w. unfold Waypoint.from_dict.
  rewrite (bool_decide_eq_true_2 _ (to_dict_keys w)). cbn [negb].
  unfold Waypoint.to_dict.
  repeat (rewrite lookup_insert_eq
          || (rewrite lookup_insert_ne by discriminate)).
  destruct w; reflexivity.
Qed.

(** A dictionary with a key that is no field is refused, and so is one
    that lacks a field without default. *)
Example from_dict_rejects :
  Waypoint.from_dict (<["frame" := VInt 3]> (<["latitude" := VFloat 1]> ∅))
    = Err (TypeError "__init__") /\
  Waypoint.from_dict (<["latitude" := VFloat 1]> ∅)
    = Err (TypeError "__init__").
Proof. split; vm_compute; reflexivity. Qed.

(** ** Mission upload from the planner *)

(** The planner's guard: with no waypoint in the mission the planner
    answers failure at once; the handler is left as it was, so neither a
    mission-clear nor a mission-count frame, nor any other, reached the
    transport. *)
Lemma upload_empty_mission_fails :
  forall (mavutil : mavlink_library) (globals : list string)
         (h : MavlinkHandler) (name : string),
    upload_mission_to_vehicle mavutil globals (Planner h [] name)
      = Returned false h /\
    forall (b : bool) (h' : MavlinkHandler),
      upload_mission_to_vehicle mavutil globals (Planner h [] name)
        = Returned b h' ->
      b = false /\ trace (master h') = trace (master h) /\
      sent_frames h' = sent_frames h.
Proof.
  intros mavutil globals h name.
  split; [reflexivity |].
  intros b h' E. cbn in E. injection E as <- <-. repeat split.
Qed.

(** C2: the handler's [upload_mission] has no test for an empty list.
    Called with no waypoint on a connected handler, it sends the mission
    clear and, once that is acknowledged, a mission count of zero; against
    a vehicle that acknowledges the count it then waits for an item request
    that never comes, and against one that sends a request it answers
    success.  The planner's entry point, its sibling, answers failure on
    the same empty list with no frame sent. *)
Theorem handler_upload_of_empty_list :
  (exists h',
     upload_mission common_dialect []
       (station [RxFrame MISSION_ACK; RxFrame MISSION_ACK] true)
     = Blocked h' /\
     sent_frames h' =
       [MISSION_CLEAR_ALL (VInt 1) (VInt 1);
        MISSION_COUNT (VInt 1) (VInt 1) 0 0]) /\
  (exists h',
     upload_mission common_dialect []
       (station [RxFrame MISSION_ACK; RxFrame (MISSION_REQUEST 255 190 0)]
          true)
     = Returned true h' /\
     sent_frames h' =
       [MISSION_CLEAR_ALL (VInt 1) (VInt 1);
        MISSION_COUNT (VInt 1) (VInt 1) 0 0]) /\
  upload_mission_to_vehicle common_dialect mission_planner_globals
    (Planner (station [RxFrame MISSION_ACK; RxFrame MISSION_ACK] true) [] "m")
  = Returned false (station [RxFrame MISSION_ACK; RxFrame MISSION_ACK] true).
Proof.
  split; [| split].
  - eexists. split; [vm_compute; reflexivity | reflexivity].
  - eexists. split; [vm_compute; reflexivity | reflexivity].
  - reflexivity.
Qed.

(** C3: the planner's upload raises instead of answering a boolean.  With
    the names the module really binds, the first waypoint of any type
    makes the method look up [mavutil], which the module never imports;
    nothing catches the [NameError] and no frame is sent. *)
Theorem planner_upload_raises_name_error :
  upload_mission_to_vehicle common_dialect mission_planner_globals
    (Planner (station one_item_answers true) [takeoff_waypoint] "m")
  = Raised (NameError "mavutil") (station one_item_answers true).
Proof. vm_compute. reflexivity. Qed.

Lemma mav_waypoint_needs_mavutil :
  forall (mavutil : mavlink_library) (globals : list string)
         (wp : Waypoint.t),
    existsb (String.eqb "mavutil") globals = false ->
    mav_waypoint mavutil globals wp = Err (NameError "mavutil").
Proof.
  intros mavutil globals wp Hno.
  unfold mav_waypoint, mavutil_mavlink. rewrite Hno.
  repeat (destruct (py_eq_str _ _); [reflexivity |]). reflexivity.
Qed.

(** The same for every mission that is not empty and every handler. *)
Lemma planner_upload_always_raises :
  forall (mavutil : mavlink_library) (h : MavlinkHandler)
         (wp : Waypoint.t) (rest : list Waypoint.t) (name : string),
    upload_mission_to_vehicle mavutil mission_planner_globals
      (Planner h (wp :: rest) name)
    = Raised (NameError "mavutil") h.
Proof.
  intros mavutil h wp rest name.
  unfold upload_mission_to_vehicle. cbn [waypoints mav mav_waypoints].
  rewrite (mav_waypoint_needs_mavutil mavutil mission_planner_globals wp)
    by reflexivity.
  reflexivity.
Qed.

(** Whatever the dictionary holds under ["command"], the item built from
    it carries the plain waypoint command. *)
Lemma waypoint_item_command :
  forall (mavutil : mavlink_library) (vs vc : value) (i : Z)
         (wp : gmap string value),
    item_command (waypoint_item mavutil vs vc i wp)
    = MAV_CMD_NAV_WAYPOINT mavutil.
Proof. reflexivity. Qed.

(** C1, evaluated on a mission of one TAKEOFF waypoint with [mavutil]
    bound in the planner's module: the planner stores the take-off command
    (22) in the dictionary, and the frame the handler sends carries the
    plain waypoint command (16). *)
Theorem takeoff_sent_with_waypoint_command :
  (d ← mav_waypoint common_dialect ("mavutil" :: mission_planner_globals)
         takeoff_waypoint;
   mret (d !! "command")) = Ok (Some (VInt 22)) /\
  exists (h' : MavlinkHandler) (item : mission_item),
    upload_mission_to_vehicle common_dialect
      ("mavutil" :: mission_planner_globals)
      (Planner (station one_item_answers true) [takeoff_waypoint] "m")
    = Returned true h' /\
    sent_frames h' =
      [MISSION_CLEAR_ALL (VInt 1) (VInt 1);
       MISSION_COUNT (VInt 1) (VInt 1) 1 0;
       MISSION_ITEM item] /\
    item_command item = 16 /\
    item_command item <> MAV_CMD_NAV_TAKEOFF common_dialect.
Proof.
  split; [vm_compute; reflexivity |].
  eexists. eexists. split; [vm_compute; reflexivity |].
  split; [reflexivity |]. split; [reflexivity | discriminate].
Qed.

(** The part of C1 on LOITER_TIME that the code delivers once [mavutil] is
    bound: parameter 1 of the item is the hold time (30), not the speed. *)
Example loiter_item_carries_hold_time :
  exists (h' : MavlinkHandler) (item : mission_item),
    upload_mission_to_vehicle common_dialect
      ("mavutil" :: mission_planner_globals)
      (Planner (station one_item_answers true) [loiter_waypoint] "m")
    = Returned true h' /\
    sent_frames h' =
      [MISSION_CLEAR_ALL (VInt 1) (VInt 1);
       MISSION_COUNT (VInt 1) (VInt 1) 1 0;
       MISSION_ITEM item] /\
    item_param1 item = VInt 30 /\
    item_command item = 16.
Proof.
  eexists. eexists. split; [vm_compute; reflexivity |].
  split; [reflexivity |]. split; reflexivity.
Qed.

(** ** Handshakes on a live link *)

Lemma linked_self :
  forall h : MavlinkHandler,
    tx_ok (master h) = true ->
    h = linked h (inbox (master h)) (trace (master h)) (params (master h)).
Proof.
  intros [ss sc [inb tr ps ok] t c ht lh vs vc p n]. cbn.
  intros ->. reflexivity.
Qed.

Lemma bind_gets_recent :
  forall (B : Type) (k : bool -> M B) (h : MavlinkHandler),
    (gets param_fetch_recent ≫= k) h = k (param_fetch_recent h) h.
Proof. reflexivity. Qed.

Lemma send_linked :
  forall (f : frame) (h0 : MavlinkHandler) (pending : list rx)
         (tr : list io) (ps : gmap string float),
    send f (linked h0 pending tr ps)
    = Returned tt (linked h0 pending (tr ++ [Sent f]) ps).
Proof. reflexivity. Qed.

Lemma post_message_linked :
  forall (msg : message) (pending : list rx) (tr : list io)
         (ps : gmap string float) (ok : bool),
    post_message msg (Mavfile pending tr ps ok)
    = Mavfile pending (tr ++ [Received msg]) (absorb ps msg) ok.
Proof. intros msg pending tr ps ok. destruct msg; reflexivity. Qed.

(** A blocking read passes over a frame of another kind. *)
Lemma recv_match_skip :
  forall (types : list string) (msg : message) (h0 : MavlinkHandler)
         (rest : list rx) (tr : list io) (ps : gmap string float),
    existsb (String.eqb (get_type msg)) types = false ->
    recv_match types (linked h0 (RxFrame msg :: rest) tr ps)
    = recv_match types
        (linked h0 rest (tr ++ [Received msg]) (absorb ps msg)).
Proof.
  intros types msg h0 rest tr ps Hkind.
  unfold recv_match, linked. cbn.
  rewrite Hkind. destruct msg; reflexivity.
Qed.

(** A blocking read hands over a frame of a kind it waits for. *)
Lemma recv_match_take :
  forall (types : list string) (msg : message) (h0 : MavlinkHandler)
         (rest : list rx) (tr : list io) (ps : gmap string float),
    existsb (String.eqb (get_type msg)) types = true ->
    recv_match types (linked h0 (RxFrame msg :: rest) tr ps)
    = Returned msg (linked h0 rest (tr ++ [Received msg]) (absorb ps msg)).
Proof.
  intros types msg h0 rest tr ps Hkind.
  unfold recv_match, linked. cbn.
  rewrite Hkind. destruct msg; reflexivity.
Qed.

(** A well-formed frame has the kind of its constructor only. *)
Lemma kind_test :
  forall (msg : message) (types : list string),
    well_formed msg ->
    (forall k, In k types -> In k codec_kinds) ->
    existsb (String.eqb (get_type msg)) types
    = match msg with
      | OTHER _ => false
      | _ => existsb (String.eqb (get_type msg)) types
      end.
Proof.
  intros msg types Hwf Hsub. destruct msg; try reflexivity.
  cbn in *. apply not_true_is_false. intros Hex.
  apply existsb_exists in Hex. destruct Hex as (k & Hk & Heq).
  apply String.eqb_eq in Heq. subst k. apply Hwf, Hsub, Hk.
Qed.

(** *** Waiting for a frame

    Both handshakes wait in a [while True] loop whose turn reads the next
    frame of some kinds and leaves the loop when the frame passes a test.
    Frames of other kinds and frames that fail the test are read and
    dropped. *)
Section Waiting.

Variable h0 : MavlinkHandler.
Variable body : M bool.
Variable kinds : list string.
Variable stop : message -> bool.

Hypothesis kinds_known : forall k, In k kinds -> In k codec_kinds.
Hypothesis body_on_frame :
  forall (msg : message) (rest : list rx) (tr : list io)
         (ps : gmap string float),
    well_formed msg ->
    body (linked h0 (RxFrame msg :: rest) tr ps)
    = if existsb (String.eqb (get_type msg)) kinds
      then Returned (stop msg)
             (linked h0 rest (tr ++ [Received msg]) (absorb ps msg))
      else body (linked h0 rest (tr ++ [Received msg]) (absorb ps msg)).

Lemma wait_loop :
  forall (term : message) (rest : list rx) (pre : list message)
         (turns : nat) (tr : list io) (ps : gmap string float),
    well_formed term ->
    existsb (String.eqb (get_type term)) kinds = true ->
    stop term = true ->
    Forall (fun msg => well_formed msg /\ stop msg = false) pre ->
    (length pre < turns)%nat ->
    while_true turns body
      (linked h0 (map RxFrame pre ++ RxFrame term :: rest) tr ps)
    = Returned tt
        (linked h0 rest (tr ++ map Received (pre ++ [term]))
           (fold_left absorb (pre ++ [term]) ps)).
Proof.
  intros term rest pre.
  induction pre as [| msg pre IH];
    intros turns tr ps Hwf Hkind Hstop Hpre Hlen;
    (destruct turns as [| n]; [simpl in Hlen; lia |]);
    rewrite while_true_step; cbn [map app].
  - rewrite (body_on_frame _ _ _ _ Hwf), Hkind, Hstop. reflexivity.
  - inversion Hpre as [| ? ? [Hmsg Hnot] Hrest]; subst.
    rewrite (body_on_frame _ _ _ _ Hmsg).
    destruct (existsb (String.eqb (get_type msg)) kinds).
    + rewrite Hnot.
      rewrite (IH n _ _ Hwf Hkind Hstop Hrest) by (simpl in Hlen; lia).
      cbn [fold_left app map]. rewrite <- app_assoc. reflexivity.
    + rewrite <- while_true_step.
      rewrite (IH (S n) _ _ Hwf Hkind Hstop Hrest) by (simpl in Hlen; lia).
      cbn [fold_left app map]. rewrite <- app_assoc. reflexivity.
Qed.

End Waiting.

(** ** Fetching the parameters *)

Lemma param_kinds_known : forall k, In k param_kinds -> In k codec_kinds.
Proof. unfold param_kinds, codec_kinds. simpl. tauto. Qed.

(** With an index that is not negative, as on the wire, the test is the
    comparison of the index with the count minus one. *)
Lemma is_terminal_iff :
  forall (id : string) (v : float) (count index : Z),
    0 <= index ->
    is_terminal (PARAM_VALUE id v count index) = true <-> index = count - 1.
Proof.
  intros id v count index Hindex. cbn.
  rewrite andb_true_iff, Z.ltb_lt, Z.eqb_eq. lia.
Qed.

Lemma get_parameters_turn_on_frame :
  forall (msg : message) (h0 : MavlinkHandler) (rest : list rx)
         (tr : list io) (ps : gmap string float),
    well_formed msg ->
    get_parameters_turn (linked h0 (RxFrame msg :: rest) tr ps)
    = if existsb (String.eqb (get_type msg)) param_kinds
      then Returned (is_terminal msg)
             (linked h0 rest (tr ++ [Received msg]) (absorb ps msg))
      else get_parameters_turn
             (linked h0 rest (tr ++ [Received msg]) (absorb ps msg)).
Proof.
  intros msg h0 rest tr ps Hwf.
  unfold get_parameters_turn at 1. unfold mbind, M_bind.
  fold param_kinds.
  destruct (existsb (String.eqb (get_type msg)) param_kinds) eqn:Hkind.
  - rewrite (recv_match_take _ _ _ _ _ _ Hkind).
    rewrite (kind_test msg param_kinds Hwf param_kinds_known) in Hkind.
    destruct msg; try discriminate Hkind; run_M; try reflexivity.
    destruct (Z.ltb 0 param_count); reflexivity.
  - rewrite (recv_match_skip _ _ _ _ _ _ Hkind). reflexivity.
Qed.

Lemma get_parameters_wait :
  forall (h0 : MavlinkHandler) (term : message) (rest : list rx)
         (pre : list message) (turns : nat) (tr : list io)
         (ps : gmap string float),
    is_terminal term = true ->
    Forall passes pre ->
    (length pre < turns)%nat ->
    while_true turns get_parameters_turn
      (linked h0 (map RxFrame pre ++ RxFrame term :: rest) tr ps)
    = Returned tt
        (linked h0 rest (tr ++ map Received (pre ++ [term]))
           (fold_left absorb (pre ++ [term]) ps)).
Proof.
  intros h0 term rest pre turns tr ps Hterm Hpre Hlen.
  apply (wait_loop h0 get_parameters_turn param_kinds is_terminal).
  - intros msg rest' tr' ps' Hwf.
    apply get_parameters_turn_on_frame. exact Hwf.
  - destruct term; try discriminate Hterm. exact I.
  - destruct term; try discriminate Hterm. reflexivity.
  - exact Hterm.
  - exact Hpre.
  - exact Hlen.
Qed.

Lemma param_fetch_all_linked :
  forall (h0 : MavlinkHandler) (pending : list rx) (tr : list io)
         (ps : gmap string float),
    param_fetch_all (linked h0 pending tr ps)
    = Returned tt
        (linked (set_param_fetch_recent true h0) pending
           (tr ++ list_request h0) ps).
Proof.
  intros h0 pending tr ps. unfold param_fetch_all, list_request.
  rewrite bind_gets_recent.
  destruct h0 as [ss sc lk t c ht lh vs vc p n [|]]; cbn.
  - rewrite app_nil_r. reflexivity.
  - reflexivity.
Qed.

Lemma get_parameters_unfold :
  forall (h0 : MavlinkHandler) (pending : list rx) (tr : list io)
         (ps : gmap string float),
    connected h0 = true ->
    get_parameters (linked h0 pending tr ps) =
    match while_true (S (length pending)) get_parameters_turn
            (linked (set_param_fetch_recent true h0) pending
               (tr ++ list_request h0) ps)
    with
    | Returned _ h1 =>
        Returned (params (master h1)) (set_parameters (params (master h1)) h1)
    | Raised _ h1 => Returned ∅ h1
    | Blocked h1 => Blocked h1
    end.
Proof.
  intros h0 pending tr ps Hc.
  unfold get_parameters, try_except, gets, pending_reads, modify.
  unfold mbind at 1, M_bind at 1. cbn [connected linked set_master].
  rewrite Hc. cbn [negb].
  unfold mbind at 1, M_bind at 1. rewrite param_fetch_all_linked.
  unfold mbind, M_bind, mret, M_ret. cbn -[while_true].
  destruct (while_true _ _ _) as [[] h1 | e h1 | h1]; reflexivity.
Qed.

(** C8, amended: on a live link, [get_parameters] asks for the parameter
    list (unless the link asked less than two seconds ago) and reads until
    a PARAM_VALUE frame whose index is its count minus one; the table it
    answers and stores is the table kept by the link: the entries it held
    before the call, updated in arrival order with every frame read up to
    and including that one.  On a link whose table was empty, with count 3
    and the values of indices 1, 0, 2 arriving in that order under three
    different names, the table has exactly these three entries, and it is
    the table obtained when they arrive in the order 0, 1, 2. *)
Theorem fetch_parameters_collects :
  forall (h : MavlinkHandler) (pre : list message) (term : message)
         (rest : list rx),
    connected h = true ->
    tx_ok (master h) = true ->
    inbox (master h) = (map RxFrame pre ++ RxFrame term :: rest)%list ->
    Forall passes pre ->
    is_terminal term = true ->
    (exists h',
       get_parameters h
       = Returned (fold_left absorb (pre ++ [term]) (params (master h))) h' /\
       parameters h' = fold_left absorb (pre ++ [term]) (params (master h)) /\
       inbox (master h') = rest /\
       trace (master h') =
         (trace (master h) ++ list_request h
          ++ map Received (pre ++ [term]))%list) /\
    (forall (n0 n1 n2 : string) (v0 v1 v2 : float),
       params (master h) = ∅ ->
       n0 <> n1 -> n0 <> n2 -> n1 <> n2 ->
       pre = [PARAM_VALUE n1 v1 3 1; PARAM_VALUE n0 v0 3 0] ->
       term = PARAM_VALUE n2 v2 3 2 ->
       exists (table : gmap string float) (h' : MavlinkHandler),
         get_parameters h = Returned table h' /\
         size table = 3%nat /\
         table !! n0 = Some v0 /\
         table !! n1 = Some v1 /\
         table !! n2 = Some v2 /\
         table = fold_left absorb
                   [PARAM_VALUE n0 v0 3 0; PARAM_VALUE n1 v1 3 1;
                    PARAM_VALUE n2 v2 3 2] ∅).
Proof.
  intros h pre term rest Hc Htx Hin Hpre Hterm.
  assert (Hrun : exists h',
    get_parameters h
    = Returned (fold_left absorb (pre ++ [term]) (params (master h))) h' /\
    parameters h' = fold_left absorb (pre ++ [term]) (params (master h)) /\
    inbox (master h') = rest /\
    trace (master h') =
      (trace (master h) ++ list_request h
       ++ map Received (pre ++ [term]))%list).
  { replace (get_parameters h)
      with (get_parameters
              (linked h (inbox (master h)) (trace (master h))
                 (params (master h))))
      by (rewrite <- (linked_self h Htx); reflexivity).
    rewrite Hin, (get_parameters_unfold h _ _ _ Hc).
    rewrite (get_parameters_wait _ term rest pre _ _ _ Hterm Hpre)
      by (rewrite length_app, length_map; simpl; lia).
    eexists. split; [reflexivity |]. cbn.
    rewrite <- app_assoc. repeat split; reflexivity. }
  split; [exact Hrun |].
  intros n0 n1 n2 v0 v1 v2 Hfresh H01 H02 H12 -> ->.
  destruct Hrun as (h' & Hrun & _). rewrite Hfresh in Hrun. cbn in Hrun.
  eexists. exists h'. split; [exact Hrun |].
  assert (Hsize : size (<[n2 := v2]> (<[n0 := v0]> (<[n1 := v1]>
                          (∅ : gmap string float)))) = 3%nat).
  { rewrite !map_size_insert_None, map_size_empty; [reflexivity | ..].
    - apply lookup_empty.
    - rewrite lookup_insert_ne by auto. apply lookup_empty.
    - rewrite !lookup_insert_ne by auto. apply lookup_empty. }
  split; [exact Hsize |].
  split; [rewrite lookup_insert_ne by auto; apply lookup_insert_eq |].
  split; [rewrite !lookup_insert_ne by auto; apply lookup_insert_eq |].
  split; [apply lookup_insert_eq |].
  cbn. f_equal. apply insert_insert_ne. auto.
Qed.

Lemma fetch_parameters_collects_witness :
  exists h',
    get_parameters
      (station [RxFrame (PARAM_VALUE "BATT_CAPACITY" 3300 3 1);
                RxFrame (PARAM_VALUE "ARMING_CHECK" 1 3 0);
                RxFrame (PARAM_VALUE "WPNAV_SPEED" 500 3 2)] true)
    = Returned
        (fold_left absorb
           [PARAM_VALUE "BATT_CAPACITY" 3300 3 1;
            PARAM_VALUE "ARMING_CHECK" 1 3 0;
            PARAM_VALUE "WPNAV_SPEED" 500 3 2] ∅) h' /\
    size (parameters h') = 3%nat.
Proof.
  destruct (fetch_parameters_collects
              (station [RxFrame (PARAM_VALUE "BATT_CAPACITY" 3300 3 1);
                        RxFrame (PARAM_VALUE "ARMING_CHECK" 1 3 0);
                        RxFrame (PARAM_VALUE "WPNAV_SPEED" 500 3 2)] true)
              [PARAM_VALUE "BATT_CAPACITY" 3300 3 1;
               PARAM_VALUE "ARMING_CHECK" 1 3 0]
              (PARAM_VALUE "WPNAV_SPEED" 500 3 2) [])
    as [(h' & Hrun & Hstored & _) _].
  - reflexivity.
  - reflexivity.
  - reflexivity.
  - repeat constructor.
  - reflexivity.
  - exists h'. split; [exact Hrun |]. rewrite Hstored.
    vm_compute. reflexivity.
Defined.

(** C8 as stated fails on a link that holds an entry from before the
    call: the table answered for count 3 and the three frames of indices
    1, 0, 2 has four entries, one of them built from no frame seen. *)
Lemma fetch_returns_prior_entries :
  exists (table : gmap string float) (h' : MavlinkHandler),
    get_parameters
      (set_master
         (Mavfile [RxFrame (PARAM_VALUE "BATT_CAPACITY" 3300 3 1);
                   RxFrame (PARAM_VALUE "ARMING_CHECK" 1 3 0);
                   RxFrame (PARAM_VALUE "WPNAV_SPEED" 500 3 2)]
            [] {[ "RTL_ALT" := 1500%float ]} true)
         (station [] true))
    = Returned table h' /\
    size table = 4%nat /\
    size table <> 3%nat /\
    table !! "RTL_ALT" = Some 1500%float.
Proof.
  eexists. eexists. split; [vm_compute; reflexivity |].
  split; [vm_compute; reflexivity |].
  split; [vm_compute; discriminate | vm_compute; reflexivity].
Qed.

(** When the frame of the last index arrives first the wait ends on it:
    the table holds that one entry and the two other frames stay unread. *)
Example fetch_ends_on_early_last_index :
  exists h',
    get_parameters
      (station [RxFrame (PARAM_VALUE "WPNAV_SPEED" 500 3 2);
                RxFrame (PARAM_VALUE "ARMING_CHECK" 1 3 0);
                RxFrame (PARAM_VALUE "BATT_CAPACITY" 3300 3 1)] true)
    = Returned {[ "WPNAV_SPEED" := 500%float ]} h' /\
    length (inbox (master h')) = 2%nat.
Proof. eexists. split; [vm_compute; reflexivity | reflexivity]. Qed.

(** With nothing more to read the call never returns. *)
Example fetch_blocks_without_last_index :
  exists h',
    get_parameters
      (station [RxFrame (PARAM_VALUE "ARMING_CHECK" 1 3 0)] true)
    = Blocked h'.
Proof. eexists. vm_compute. reflexivity. Qed.

(** ** Uploading a mission *)

Lemma await_request_turn_on_frame :
  forall (h0 : MavlinkHandler) (msg : message) (rest : list rx)
         (tr : list io) (ps : gmap string float),
    well_formed msg ->
    await_request_turn (linked h0 (RxFrame msg :: rest) tr ps)
    = if existsb (String.eqb (get_type msg)) ["MISSION_REQUEST"]
      then Returned (addressed h0 msg)
             (linked h0 rest (tr ++ [Received msg]) (absorb ps msg))
      else await_request_turn
             (linked h0 rest (tr ++ [Received msg]) (absorb ps msg)).
Proof.
  intros h0 msg rest tr ps Hwf.
  unfold await_request_turn at 1. unfold mbind, M_bind.
  destruct (existsb (String.eqb (get_type msg)) ["MISSION_REQUEST"])
    eqn:Hkind.
  - rewrite (recv_match_take _ _ _ _ _ _ Hkind).
    rewrite (kind_test msg ["MISSION_REQUEST"] Hwf) in Hkind
      by (unfold codec_kinds; simpl; tauto).
    destruct msg; try discriminate Hkind. run_M.
    destruct (Z.eqb target_system (source_system h0)); reflexivity.
  - rewrite (recv_match_skip _ _ _ _ _ _ Hkind). reflexivity.
Qed.

Lemma upload_mission_unfold :
  forall (mavutil : mavlink_library) (h0 : MavlinkHandler)
         (wps : list (gmap string value)) (pending : list rx)
         (tr : list io) (ps : gmap string float),
    connected h0 = true ->
    upload_mission mavutil wps
      (linked h0 (RxFrame MISSION_ACK :: pending) tr ps)
    = match
        while_true (S (length pending)) await_request_turn
          (linked h0 pending
             (tr ++ [Sent (MISSION_CLEAR_ALL (vehicle_system h0)
                             (vehicle_component h0));
                     Received MISSION_ACK;
                     Sent (MISSION_COUNT (vehicle_system h0)
                             (vehicle_component h0)
                             (Z.of_nat (length wps)) 0)]) ps)
      with
      | Returned _ h1 =>
          match send_waypoints mavutil 0 wps h1 with
          | Returned _ h2 => Returned true h2
          | Raised _ h2 => Returned false h2
          | Blocked h2 => Blocked h2
          end
      | Raised _ h1 => Returned false h1
      | Blocked h1 => Blocked h1
      end.
Proof.
  intros mavutil h0 wps pending tr ps Hc.
  unfold upload_mission, try_except, gets, pending_reads,
    mbind, M_bind, mret, M_ret.
  cbn -[while_true send_waypoints]. rewrite Hc.
  cbn -[while_true send_waypoints].
  rewrite <- !app_assoc. cbn [app].
  destruct (while_true _ _ _) as [[] h1 | e h1 | h1]; try reflexivity.
  destruct (send_waypoints mavutil 0 wps h1) as [[] h2 | e h2 | h2];
    reflexivity.
Qed.

(** C9: the item loop answers requests that are not the station's.  The
    wait for the first request tests the target of the request; the loop
    that sends the items does not.  With two waypoints, a request addressed
    to another station (system 7, component 1, item 5) that arrives between
    the station's own requests for items 0 and 1 is answered with item 1;
    the loop then ends on the station's request for item 1, and the upload
    answers success with the vehicle's acknowledgment still unread. *)
Theorem upload_answers_foreign_request :
  exists h',
    upload_mission common_dialect [first_leg; second_leg]
      (station [RxFrame MISSION_ACK;
                RxFrame (MISSION_REQUEST 255 190 0);
                RxFrame (MISSION_REQUEST 7 1 5);
                RxFrame (MISSION_REQUEST 255 190 1);
                RxFrame MISSION_ACK] true)
    = Returned true h' /\
    items_sent (trace (master h')) = [0; 1] /\
    requests_read (trace (master h')) = [0; 5; 1] /\
    inbox (master h') = [RxFrame MISSION_ACK] /\
    ~ answers_only_own_requests h' (trace (master h')) /\
    ~ ends_with_ack (trace (master h')).
Proof.
  eexists. split; [vm_compute; reflexivity |].
  split; [reflexivity |]. split; [reflexivity |]. split; [reflexivity |].
  split.
  - intros Hown.
    specialize (Hown
      [Sent (MISSION_CLEAR_ALL (VInt 1) (VInt 1)); Received MISSION_ACK;
       Sent (MISSION_COUNT (VInt 1) (VInt 1) 2 0);
       Received (MISSION_REQUEST 255 190 0);
       Sent (MISSION_ITEM
               (waypoint_item common_dialect (VInt 1) (VInt 1) 0 first_leg))]
      [Received (MISSION_REQUEST 255 190 1)]
      7 1 5
      (waypoint_item common_dialect (VInt 1) (VInt 1) 1 second_leg)
      eq_refl).
    discriminate Hown.
  - unfold ends_with_ack. cbn. discriminate.
Qed.

(** An acknowledgment read after the first item ends the loop: the upload
    answers success with one of the two items sent. *)
Example upload_stops_on_early_ack :
  exists h',
    upload_mission common_dialect [first_leg; second_leg]
      (station [RxFrame MISSION_ACK;
                RxFrame (MISSION_REQUEST 255 190 0);
                RxFrame MISSION_ACK] true)
    = Returned true h' /\
    items_sent (trace (master h')) = [0].
Proof. eexists. split; [vm_compute; reflexivity | reflexivity]. Qed.

(** * Further properties of the handler *)

(** ** Failure is reported, not raised *)

(** A method guarded by [connected] whose body sits in a [try] with a
    handler that returns does not raise. *)
Lemma guarded_try_never_raises :
  forall (A : Type) (dflt : A) (body : M A) (handler : exn -> M A)
         (h : MavlinkHandler),
    (forall e h0, exists a h1, handler e h0 = Returned a h1) ->
    forall e h',
      (c ← gets connected;
       if negb c then mret dflt else try_except body handler) h
      <> Raised e h'.
Proof.
  intros A dflt body handler h Hhandler e h'.
  unfold gets, try_except, mbind, M_bind, mret, M_ret.
  destruct (connected h); cbn [negb]; [| discriminate].
  destruct (body h) as [a h1 | e1 h1 | h1]; try discriminate.
  destruct (Hhandler e1 h1) as (a & h2 & ->). discriminate.
Qed.

(** X1: whatever the state of the handler and of the link (pending frames,
    read faults, a link that refuses sends), [update_telemetry],
    [set_mode], [upload_mission] and [get_parameters] never raise: the call
    returns, or waits for ever on a read. *)
Theorem handler_methods_never_raise :
  forall (mavutil : mavlink_library) (clock : nat -> float)
         (h : MavlinkHandler) (name : string)
         (wps : list (gmap string value)) (e : exn) (h' : MavlinkHandler),
    update_telemetry mavutil clock h <> Raised e h' /\
    set_mode mavutil name h <> Raised e h' /\
    upload_mission mavutil wps h <> Raised e h' /\
    get_parameters h <> Raised e h'.
Proof.
  intros mavutil clock h name wps e h'.
  repeat split;
    apply guarded_try_never_raises; intros e0 h0;
    eexists; eexists; reflexivity.
Qed.

(** ** A session that is down *)

Lemma disconnected_inert :
  forall (mavutil : mavlink_library) (clock : nat -> float)
         (h : MavlinkHandler) (name : string)
         (wps : list (gmap string value)),
    connected h = false ->
    update_telemetry mavutil clock h = Returned false h /\
    set_mode mavutil name h = Returned false h /\
    upload_mission mavutil wps h = Returned false h /\
    get_parameters h = Returned ∅ h.
Proof.
  intros mavutil clock h name wps Hc.
  unfold update_telemetry, set_mode, upload_mission, get_parameters,
    gets, mbind, M_bind, mret, M_ret.
  rewrite Hc. repeat split; reflexivity.
Qed.

Lemma failed_poll_disconnects :
  forall (mavutil : mavlink_library) (clock : nat -> float)
         (h h' : MavlinkHandler),
    update_telemetry mavutil clock h = Returned false h' ->
    connected h' = false.
Proof.
  intros mavutil clock h h' Hpoll.
  destruct (connected h) eqn:Hc.
  - rewrite (update_telemetry_unfold mavutil clock h Hc) in Hpoll.
    destruct (drain_link mavutil clock h) as [[] h1 | e h1 | h1];
      try discriminate Hpoll.
    + destruct (PrimFloat.ltb _ _); [| discriminate Hpoll].
      injection Hpoll as <-. reflexivity.
    + injection Hpoll as <-. reflexivity.
  - destruct (disconnected_inert mavutil clock h "" [] Hc) as [Hu _].
    rewrite Hu in Hpoll. injection Hpoll as <-. exact Hc.
Qed.

(** X2: a poll that answers failure leaves the session down for good: the
    next poll answers failure again without reading the link, so frames
    that arrive later (heartbeats included) do not bring the session back,
    and [set_mode], [upload_mission] and [get_parameters] answer failure
    or the empty table, all of them leaving the handler and the link
    untouched. *)
Theorem failed_poll_is_final :
  forall (mavutil : mavlink_library) (clock clock' : nat -> float)
         (h h' : MavlinkHandler) (later : list rx) (name : string)
         (wps : list (gmap string value)),
    update_telemetry mavutil clock h = Returned false h' ->
    let h'' := set_master (set_inbox (inbox (master h') ++ later)
                             (master h')) h' in
    update_telemetry mavutil clock' h'' = Returned false h'' /\
    set_mode mavutil name h'' = Returned false h'' /\
    upload_mission mavutil wps h'' = Returned false h'' /\
    get_parameters h'' = Returned ∅ h''.
Proof.
  intros mavutil clock clock' h h' later name wps Hpoll h''.
  apply disconnected_inert. unfold h''. cbn.
  exact (failed_poll_disconnects mavutil clock h h' Hpoll).
Qed.

Lemma failed_poll_is_final_witness :
  exists h',
    update_telemetry common_dialect clock_104 (station [] true)
      = Returned false h' /\
    let h'' := set_master
                 (set_inbox (inbox (master h') ++ [RxFrame (HEARTBEAT 209 3)])
                    (master h')) h' in
    update_telemetry common_dialect clock_101 h'' = Returned false h''.
Proof.
  eexists. split; [vm_compute; reflexivity |].
  intros h''.
  refine (proj1 (failed_poll_is_final common_dialect clock_104 clock_101
                   (station [] true) _ [RxFrame (HEARTBEAT 209 3)] "" [] _)).
  vm_compute. reflexivity.
Defined.

(** X3: on a connected handler whose link refuses sends, [set_mode] (for
    any name) and [upload_mission] answer failure, read nothing and leave
    the handler as it was; [get_parameters], when the link has not asked
    for the parameters in the last two seconds, answers the empty table,
    with nothing read and the link and the status of the session
    untouched. *)
Theorem link_down_fails_cleanly :
  forall (mavutil : mavlink_library) (h : MavlinkHandler) (name : string)
         (wps : list (gmap string value)),
    connected h = true ->
    tx_ok (master h) = false ->
    set_mode mavutil name h = Returned false h /\
    upload_mission mavutil wps h = Returned false h /\
    (param_fetch_recent h = false ->
     exists h',
       get_parameters h = Returned ∅ h' /\
       master h' = master h /\
       status_kept h h').
Proof.
  intros mavutil h name wps Hc Htx.
  unfold set_mode, upload_mission, get_parameters, param_fetch_all,
    mavutil_mode_mapping, try_except, gets, lift, raise, modify, send,
    mbind, M_bind, mret, M_ret.
  rewrite Hc. cbn [negb]. split; [| split].
  - destruct (has_mode_mapping mavutil); [| reflexivity].
    destruct (List.find _ _) as [[k id] |]; [| reflexivity].
    rewrite Htx. reflexivity.
  - rewrite Htx. reflexivity.
  - intros Hrecent. rewrite Hrecent. cbn [master set_param_fetch_recent].
    rewrite Htx. eexists. split; [reflexivity |]. repeat split.
Qed.

Lemma link_down_fails_cleanly_witness :
  let h := set_master (Mavfile [RxFrame MISSION_ACK] [] ∅ false)
             (station [] true) in
  set_mode common_dialect "GUIDED" h = Returned false h /\
  upload_mission common_dialect [first_leg] h = Returned false h /\
  exists h', get_parameters h = Returned ∅ h' /\ master h' = master h.
Proof.
  intros h.
  destruct (link_down_fails_cleanly common_dialect h "GUIDED" [first_leg])
    as (Hmode & Hupload & Hfetch); [reflexivity | reflexivity |].
  split; [exact Hmode |]. split; [exact Hupload |].
  destruct (Hfetch eq_refl) as (h' & Hrun & Hlink & _).
  exists h'. split; [exact Hrun | exact Hlink].
Defined.

(** ** Heartbeats *)

Lemma land_pow2_testbit :
  forall a n : Z,
    0 <= n -> Z.eqb (Z.land a (2 ^ n)) 0 = negb (Z.testbit a n).
Proof.
  intros a n Hn. destruct (Z.testbit a n) eqn:E; cbn [negb].
  - apply Z.eqb_neq. intros H0.
    assert (H : Z.testbit (Z.land a (2 ^ n)) n = true)
      by (rewrite Z.land_spec, E, Z.pow2_bits_true; auto).
    rewrite H0, Z.bits_0 in H. discriminate H.
  - apply Z.eqb_eq. apply Z.bits_inj'. intros m Hm.
    rewrite Z.land_spec, Z.bits_0.
    destruct (Z.eq_dec n m) as [<- | Hne].
    + rewrite E. reflexivity.
    + rewrite Z.pow2_bits_false by auto. apply andb_false_r.
Qed.

(** The first name of the table mapped to a number. *)
Lemma first_name_by_number :
  forall (table : list (string * Z)) (num : Z),
    match map fst (List.filter (fun kv => Z.eqb (snd kv) num) table) with
    | k :: _ => k
    | [] => "UNKNOWN"
    end
    = match List.find (fun kv => Z.eqb (snd kv) num) table with
      | Some kv => fst kv
      | None => "UNKNOWN"
      end.
Proof.
  intros table num. induction table as [| [k v] rest IH]; [reflexivity |].
  cbn. destruct (Z.eqb v num); [reflexivity | exact IH].
Qed.

(** The handler after the assignments that come before the mode table is
    read. *)
Lemma process_heartbeat :
  forall (mavutil : mavlink_library) (clock : nat -> float)
         (base_mode custom_mode : Z) (h : MavlinkHandler),
    let h1 :=
      set_telemetry
        (with_timestamp (clock (S (time_calls h)))
           (with_armed
              (negb (Z.eqb (Z.land base_mode
                              (MAV_MODE_FLAG_SAFETY_ARMED mavutil)) 0))
              (telemetry h)))
        (set_time_calls (S (S (time_calls h)))
           (set_last_heartbeat (clock (time_calls h)) h)) in
    _process_message mavutil clock (HEARTBEAT base_mode custom_mode) h
    = if has_mode_mapping mavutil
      then Returned tt
             (set_telemetry
                (with_mode
                   match List.find (fun kv => Z.eqb (snd kv) custom_mode)
                           (mode_mapping mavutil) with
                   | Some kv => fst kv
                   | None => "UNKNOWN"
                   end (telemetry h1)) h1)
      else Raised (AttributeError "mode_mapping") h1.
Proof.
  intros mavutil clock base_mode custom_mode h.
  unfold _process_message, mavutil_mode_mapping. run_M.
  destruct (has_mode_mapping mavutil); cbn; [| reflexivity].
  rewrite first_name_by_number. reflexivity.
Qed.

(** X4: a HEARTBEAT frame refreshes the time of the last heartbeat with
    one clock reading and the snapshot's timestamp with the next one, and,
    with the armed flag at bit 7, sets [armed] to bit 7 of [base_mode];
    position, speed, battery, the link and the connected flag are left
    alone.  It then reads the mode table of [mavutil]: when the module has
    no attribute [mode_mapping], as in the library that ships, the decoder
    raises AttributeError with these assignments done and [mode] as it
    was; when it has one, [mode] becomes the first name the table maps to
    [custom_mode], and UNKNOWN when the table has no such number. *)
Theorem heartbeat_decoded :
  forall (mavutil : mavlink_library) (clock : nat -> float)
         (base_mode custom_mode : Z) (h : MavlinkHandler),
    MAV_MODE_FLAG_SAFETY_ARMED mavutil = 128 ->
    exists h',
      final_state
        (_process_message mavutil clock (HEARTBEAT base_mode custom_mode) h)
      = h' /\
      last_heartbeat h' = clock (time_calls h) /\
      timestamp (telemetry h') = clock (S (time_calls h)) /\
      time_calls h' = S (S (time_calls h)) /\
      armed (telemetry h') = Z.testbit base_mode 7 /\
      latitude (telemetry h') = latitude (telemetry h) /\
      longitude (telemetry h') = longitude (telemetry h) /\
      altitude (telemetry h') = altitude (telemetry h) /\
      heading (telemetry h') = heading (telemetry h) /\
      groundspeed (telemetry h') = groundspeed (telemetry h) /\
      battery_voltage (telemetry h') = battery_voltage (telemetry h) /\
      battery_remaining (telemetry h') = battery_remaining (telemetry h) /\
      master h' = master h /\
      connected h' = connected h /\
      (has_mode_mapping mavutil = false ->
       _process_message mavutil clock (HEARTBEAT base_mode custom_mode) h
       = Raised (AttributeError "mode_mapping") h' /\
       mode (telemetry h') = mode (telemetry h)) /\
      (has_mode_mapping mavutil = true ->
       _process_message mavutil clock (HEARTBEAT base_mode custom_mode) h
       = Returned tt h' /\
       (forall name,
          List.find (fun kv => Z.eqb (snd kv) custom_mode)
            (mode_mapping mavutil) = Some (name, custom_mode) ->
          mode (telemetry h') = name) /\
       (~ In custom_mode (map snd (mode_mapping mavutil)) ->
        mode (telemetry h') = "UNKNOWN")).
Proof.
  intros mavutil clock base_mode custom_mode h Hflag.
  rewrite process_heartbeat. cbv zeta. rewrite Hflag.
  change 128 with (2 ^ 7). rewrite land_pow2_testbit by lia.
  rewrite negb_involutive.
  destruct (has_mode_mapping mavutil); eexists;
    (split; [reflexivity |]); cbn; repeat (split; [reflexivity |]).
  - split; [discriminate |]. intros _. split; [reflexivity |]. split.
    + intros name Hfind. rewrite Hfind. reflexivity.
    + intros Hnot.
      destruct (List.find _ _) as [[k v] |] eqn:Hfind; [| reflexivity].
      exfalso. apply Hnot. apply find_some in Hfind.
      destruct Hfind as [Hin Heq]. cbn in Heq. apply Z.eqb_eq in Heq.
      subst v. apply in_map_iff. exists (k, custom_mode). split; auto.
  - split; [| discriminate]. intros _. split; reflexivity.
Qed.

Lemma heartbeat_decoded_witness :
  exists h',
    _process_message common_dialect clock_101 (HEARTBEAT 209 4)
      (station [] true) = Raised (AttributeError "mode_mapping") h' /\
    armed (telemetry h') = true /\
    last_heartbeat h' = 101%float /\
    mode (telemetry h') = "UNKNOWN".
Proof.
  destruct (heartbeat_decoded common_dialect clock_101 209 4
              (station [] true) eq_refl)
    as (h' & _ & Hlast & _ & _ & Harmed & _ & _ & _ & _ & _ & _ & _ & _ & _
        & Hreal & _).
  destruct (Hreal eq_refl) as [Hrun Hmode].
  exists h'. split; [exact Hrun |]. split; [| split].
  - rewrite Harmed. reflexivity.
  - rewrite Hlast. reflexivity.
  - rewrite Hmode. reflexivity.
Defined.

(** ** Setting the mode *)

(** X5: [set_mode] reads the mode table of [mavutil] before anything else
    it does on the link: when the module has no attribute [mode_mapping],
    as in the library that ships, it answers failure for every mode name
    and every state of the handler and of the link, and leaves both as
    they were; no SET_MODE frame is ever sent. *)
Theorem set_mode_needs_mode_mapping :
  forall (mavutil : mavlink_library) (name : string) (h : MavlinkHandler),
    has_mode_mapping mavutil = false ->
    set_mode mavutil name h = Returned false h.
Proof.
  intros mavutil name h Hno.
  unfold set_mode, mavutil_mode_mapping, try_except, gets, lift, raise,
    mbind, M_bind, mret, M_ret.
  rewrite Hno. destruct (connected h); reflexivity.
Qed.

Lemma set_mode_needs_mode_mapping_witness :
  set_mode common_dialect "GUIDED" (station [] true)
  = Returned false (station [] true).
Proof.
  apply (set_mode_needs_mode_mapping common_dialect "GUIDED"
           (station [] true)).
  reflexivity.
Defined.

Lemma sent_frames_after_send :
  forall (f : frame) (h : MavlinkHandler),
    sent_frames
      (set_master (set_trace (trace (master h) ++ [Sent f]) (master h)) h)
    = (sent_frames h ++ [f])%list.
Proof.
  intros f h. unfold sent_frames. cbn. rewrite omap_app. reflexivity.
Qed.

(** ** The poll, frame by frame *)

Lemma process_other_keeps_clock :
  forall (mavutil : mavlink_library) (clock : nat -> float)
         (msg : message) (h : MavlinkHandler),
    well_formed msg ->
    get_type msg <> "HEARTBEAT" ->
    exists h',
      _process_message mavutil clock msg h = Returned tt h' /\
      master h' = master h /\
      connected h' = connected h /\
      heartbeat_timeout h' = heartbeat_timeout h /\
      last_heartbeat h' = last_heartbeat h /\
      time_calls h' = time_calls h /\
      mode (telemetry h') = mode (telemetry h).
Proof.
  intros mavutil clock msg h Hwf Hnot.
  destruct msg;
    try (eexists; split;
         [unfold _process_message; run_M; reflexivity
         | repeat split; reflexivity]).
  - exfalso. apply Hnot. reflexivity.
  - exists h. split; [| repeat split; reflexivity].
    apply process_message_skip. simpl in *.
    intros Hin. apply Hwf. unfold known_kinds, codec_kinds in *.
    simpl in *. tauto.
Qed.

(** The drain loop over frames that are no heartbeats, up to what comes
    behind them. *)
Lemma drain_others :
  forall (mavutil : mavlink_library) (clock : nat -> float)
         (pre : list message) (tail : list rx) (turns : nat)
         (h : MavlinkHandler),
    inbox (master h) = (map RxFrame pre ++ tail)%list ->
    Forall (fun msg => well_formed msg /\ get_type msg <> "HEARTBEAT") pre ->
    exists h1,
      while_true (length pre + turns) (update_telemetry_turn mavutil clock) h
      = while_true turns (update_telemetry_turn mavutil clock) h1 /\
      inbox (master h1) = tail /\
      connected h1 = connected h /\
      heartbeat_timeout h1 = heartbeat_timeout h /\
      last_heartbeat h1 = last_heartbeat h /\
      time_calls h1 = time_calls h /\
      mode (telemetry h1) = mode (telemetry h).
Proof.
  intros mavutil clock pre tail turns.
  induction pre as [| msg pre IH]; intros h Hin Hpre.
  - exists h. repeat split; try reflexivity. exact Hin.
  - inversion Hpre as [| ? ? [Hwf Hnot] Hrest]; subst.
    cbn [length Nat.add]. rewrite while_true_step.
    cbn [map app] in Hin.
    rewrite (turn_on_frame _ _ _ _ _ Hin).
    destruct (process_other_keeps_clock mavutil clock msg
                (set_master
                   (post_message msg
                      (set_inbox (map RxFrame pre ++ tail) (master h))) h)
                Hwf Hnot)
      as (h2 & Hrun & Hm & Hc & Ht & Hl & Hn & Hmode).
    rewrite Hrun.
    destruct (IH h2) as (h1 & Hloop & Hi1 & Hc1 & Ht1 & Hl1 & Hn1 & Hmode1).
    + rewrite Hm. cbn. apply inbox_post_message.
    + exact Hrest.
    + exists h1. rewrite Hloop, Hi1, Hc1, Ht1, Hl1, Hn1, Hmode1.
      rewrite Hc, Ht, Hl, Hn, Hmode. repeat split; reflexivity.
Qed.

(** X6: the poll with the library as it ships, where [mavutil] has no
    attribute [mode_mapping].  A poll of a connected handler reads the
    pending frames up to the first HEARTBEAT and fails on it: it answers
    failure and clears [connected], whatever the clock reads, with the
    time of the last heartbeat refreshed, the mode as it was and the
    frames behind the heartbeat unread.  With no heartbeat and no read
    fault pending, the poll reads every frame and is decided by one clock
    reading against the time of the last heartbeat, which no other frame
    refreshes. *)
Theorem poll_stops_at_heartbeat :
  forall (mavutil : mavlink_library) (clock : nat -> float)
         (h : MavlinkHandler) (pre : list message),
    has_mode_mapping mavutil = false ->
    connected h = true ->
    Forall (fun msg => well_formed msg /\ get_type msg <> "HEARTBEAT") pre ->
    (forall (base_mode custom_mode : Z) (rest : list rx),
       inbox (master h)
       = (map RxFrame pre ++ RxFrame (HEARTBEAT base_mode custom_mode)
            :: rest)%list ->
       exists h',
         update_telemetry mavutil clock h = Returned false h' /\
         connected h' = false /\
         inbox (master h') = rest /\
         last_heartbeat h' = clock (time_calls h) /\
         time_calls h' = S (S (time_calls h)) /\
         mode (telemetry h') = mode (telemetry h)) /\
    (inbox (master h) = map RxFrame pre ->
     let alive :=
       negb (PrimFloat.ltb (heartbeat_timeout h)
               (PrimFloat.sub (clock (time_calls h)) (last_heartbeat h))) in
     exists h',
       update_telemetry mavutil clock h = Returned alive h' /\
       connected h' = alive /\
       inbox (master h') = [] /\
       last_heartbeat h' = last_heartbeat h /\
       time_calls h' = S (time_calls h)).
Proof.
  intros mavutil clock h pre Hno Hc Hpre.
  rewrite (update_telemetry_unfold mavutil clock h Hc), drain_link_unfold.
  split.
  - intros base_mode custom_mode rest Hin.
    rewrite Hin, length_app, length_map. cbn [length].
    replace (S (length pre + S (length rest)))
      with (length pre + S (S (length rest)))%nat by lia.
    destruct (drain_others mavutil clock pre _ (S (S (length rest))) h
                Hin Hpre)
      as (h2 & Hloop2 & Hi2 & Hc2 & Ht2 & Hl2 & Hn2 & Hmode2).
    rewrite Hloop2, while_true_step, (turn_on_frame _ _ _ _ _ Hi2).
    rewrite process_heartbeat, Hno. cbv zeta.
    eexists. split; [reflexivity |].
    cbn [connected set_connected master set_master set_telemetry
         set_time_calls set_last_heartbeat last_heartbeat time_calls
         telemetry].
    rewrite inbox_post_message. cbn. rewrite Hn2, Hl2 || rewrite Hn2.
    rewrite Hmode2. repeat split; reflexivity.
  - intros Hin alive.
    rewrite <- (app_nil_r (map RxFrame pre)) in Hin.
    destruct (drain_others mavutil clock pre [] 1 h Hin Hpre)
      as (h1 & Hloop & Hi1 & Hc1 & Ht1 & Hl1 & Hn1 & Hmode1).
    rewrite Hin, length_app, length_map. cbn [length].
    replace (S (length pre + 0)) with (length pre + 1)%nat by lia.
    rewrite Hloop, while_true_step, (turn_on_empty _ _ _ Hi1).
    rewrite Ht1, Hl1, Hn1. unfold alive.
    destruct (PrimFloat.ltb _ _); cbn [negb];
      eexists; (split; [reflexivity |]); cbn;
      rewrite ?Hc1, ?Hi1, ?Hl1, ?Hn1; repeat split; assumption.
Qed.

Lemma poll_stops_at_heartbeat_witness :
  exists h',
    update_telemetry common_dialect clock_101
      (station [RxFrame (VFR_HUD 12.5); RxFrame (HEARTBEAT 209 3);
                RxFrame (SYS_STATUS 12600 87)] true)
    = Returned false h' /\
    connected h' = false /\
    inbox (master h') = [RxFrame (SYS_STATUS 12600 87)].
Proof.
  destruct (poll_stops_at_heartbeat common_dialect clock_101
              (station [RxFrame (VFR_HUD 12.5); RxFrame (HEARTBEAT 209 3);
                        RxFrame (SYS_STATUS 12600 87)] true)
              [VFR_HUD 12.5]) as [Hstop _].
  - reflexivity.
  - reflexivity.
  - repeat constructor. discriminate.
  - destruct (Hstop 209 3 [RxFrame (SYS_STATUS 12600 87)] eq_refl)
      as (h' & Hrun & Hc & Hrest & _).
    exists h'. split; [exact Hrun |]. split; [exact Hc | exact Hrest].
Defined.

(** * What the methods do on any link *)

(** ** Rules for relations between the first and the last state *)

Section Rules.

Context {R : MavlinkHandler -> MavlinkHandler -> Prop} `{!PreOrder R}.

Lemma respects_ret : forall (A : Type) (a : A), respects R (mret a : M A).
Proof. intros A a h. cbn. reflexivity. Qed.

Lemma respects_gets :
  forall (A : Type) (f : MavlinkHandler -> A), respects R (gets f).
Proof. intros A f h. cbn. reflexivity. Qed.

Lemma respects_lift : forall (A : Type) (r : result A), respects R (lift r).
Proof. intros A [a | e] h; cbn; reflexivity. Qed.

Lemma respects_bind :
  forall (A B : Type) (c : M A) (k : A -> M B),
    respects R c -> (forall a, respects R (k a)) -> respects R (c ≫= k).
Proof.
  intros A B c k Hc Hk h. specialize (Hc h).
  unfold mbind, M_bind.
  destruct (c h) as [a h1 | e h1 | h1]; cbn in *; try exact Hc.
  transitivity h1; [exact Hc | apply Hk].
Qed.

Lemma respects_try :
  forall (A : Type) (body : M A) (handler : exn -> M A),
    respects R body -> (forall e, respects R (handler e)) ->
    respects R (try_except body handler).
Proof.
  intros A body handler Hb Hh h. specialize (Hb h).
  unfold try_except.
  destruct (body h) as [a h1 | e h1 | h1]; cbn in *; try exact Hb.
  transitivity h1; [exact Hb | apply Hh].
Qed.

Lemma respects_while :
  forall (body : M bool) (turns : nat),
    respects R body -> respects R (while_true turns body).
Proof.
  intros body turns Hb. induction turns as [| n IH]; intros h.
  - cbn. reflexivity.
  - rewrite while_true_step. specialize (Hb h).
    destruct (body h) as [[|] h1 | e h1 | h1]; cbn in *; try exact Hb.
    transitivity h1; [exact Hb | apply IH].
Qed.

End Rules.

(** A first part that respects [R], then a part that respects [S]. *)
Lemma respects_then :
  forall (A B : Type) (R S T : MavlinkHandler -> MavlinkHandler -> Prop)
         (c : M A) (k : A -> M B),
    (forall x y, R x y -> T x y) ->
    (forall x y z, R x y -> S y z -> T x z) ->
    respects R c -> (forall a, respects S (k a)) -> respects T (c ≫= k).
Proof.
  intros A B R S T c k Hsub Hcomp Hc Hk h. specialize (Hc h).
  unfold mbind, M_bind.
  destruct (c h) as [a h1 | e h1 | h1]; cbn in *;
    try (apply Hsub; exact Hc).
  apply (Hcomp h h1); [exact Hc | apply Hk].
Qed.

Lemma respects_try_ret :
  forall (A : Type) (T : MavlinkHandler -> MavlinkHandler -> Prop)
         (body : M A) (a : A),
    respects T body -> respects T (try_except body (fun _ => mret a)).
Proof.
  intros A T body a Hb h. specialize (Hb h). unfold try_except.
  destruct (body h) as [a1 h1 | e h1 | h1]; exact Hb.
Qed.

#[global] Instance grows_preorder (Q : io -> Prop) : PreOrder (grows Q).
Proof.
  split.
  - intros h. exists []. split; [symmetry; apply app_nil_r | constructor].
  - intros x y z (n1 & H1 & Q1) (n2 & H2 & Q2). exists (n1 ++ n2)%list.
    split.
    + rewrite H2, H1, app_assoc. reflexivity.
    + apply Forall_app. split; assumption.
Qed.

#[global] Instance status_kept_preorder : PreOrder status_kept.
Proof.
  split.
  - intros h. repeat split.
  - intros x y z (H1 & H2 & H3 & H4 & H5) (K1 & K2 & K3 & K4 & K5).
    repeat split; congruence.
Qed.

(** ** The link operations *)

Lemma trace_post_message :
  forall (msg : message) (lk : mavfile),
    trace (post_message msg lk) = (trace lk ++ [Received msg])%list.
Proof. intros msg lk. destruct msg; reflexivity. Qed.

Lemma recv_scan_log :
  forall (types : list string) (pending : list rx) (lk : mavfile),
    exists msgs : list message,
      trace (scan_link (recv_scan types pending lk))
      = (trace lk ++ map Received msgs)%list.
Proof.
  intros types pending.
  induction pending as [| [msg |] rest IH]; intros lk.
  - exists []. cbn. rewrite app_nil_r. reflexivity.
  - cbn [recv_scan].
    destruct (existsb (String.eqb (get_type msg)) types).
    + exists [msg]. cbn [scan_link map]. rewrite trace_post_message.
      reflexivity.
    + destruct (IH (post_message msg (set_inbox rest lk))) as (msgs & H).
      exists (msg :: msgs). rewrite H, trace_post_message. cbn.
      rewrite <- app_assoc. reflexivity.
  - exists []. cbn. rewrite app_nil_r. reflexivity.
Qed.

Lemma final_recv_match :
  forall (types : list string) (h : MavlinkHandler),
    final_state (recv_match types h)
    = set_master
        (scan_link (recv_scan types (inbox (master h)) (master h))) h.
Proof.
  intros types h. unfold recv_match.
  destruct (recv_scan _ _ _); reflexivity.
Qed.

Lemma Forall_received :
  forall (Q : io -> Prop) (msgs : list message),
    (forall m, Q (Received m)) -> Forall Q (map Received msgs).
Proof.
  intros Q msgs HQ. induction msgs as [| m msgs IH]; constructor; auto.
Qed.

Lemma recv_match_grows :
  forall (Q : io -> Prop) (types : list string),
    (forall m, Q (Received m)) -> respects (grows Q) (recv_match types).
Proof.
  intros Q types HQ h. rewrite final_recv_match.
  destruct (recv_scan_log types (inbox (master h)) (master h))
    as (msgs & H).
  exists (map Received msgs). split; [exact H |].
  apply Forall_received, HQ.
Qed.

Lemma recv_match_status :
  forall types : list string, respects status_kept (recv_match types).
Proof. intros types h. rewrite final_recv_match. repeat split. Qed.

Lemma recv_nonblocking_grows :
  forall Q : io -> Prop,
    (forall m, Q (Received m)) -> respects (grows Q) recv_match_nonblocking.
Proof.
  intros Q HQ h. unfold recv_match_nonblocking.
  destruct (inbox (master h)) as [| [msg |] rest];
    cbn [final_state].
  - reflexivity.
  - exists [Received msg]. cbn [master set_master].
    split; [rewrite trace_post_message; reflexivity |].
    constructor; [apply HQ | constructor].
  - exists []. split; [symmetry; apply app_nil_r | constructor].
Qed.

Lemma send_grows :
  forall (Q : io -> Prop) (f : frame),
    Q (Sent f) -> respects (grows Q) (send f).
Proof.
  intros Q f HQ h. unfold send. destruct (tx_ok (master h)); cbn.
  - exists [Sent f]. split; [reflexivity |].
    constructor; [exact HQ | constructor].
  - reflexivity.
Qed.

Lemma send_status : forall f : frame, respects status_kept (send f).
Proof.
  intros f h. unfold send. destruct (tx_ok (master h)); repeat split.
Qed.

Lemma modify_grows :
  forall (Q : io -> Prop) (f : MavlinkHandler -> MavlinkHandler),
    (forall h, master (f h) = master h) -> respects (grows Q) (modify f).
Proof.
  intros Q f Hf h. cbn. exists []. rewrite Hf.
  split; [symmetry; apply app_nil_r | constructor].
Qed.

Lemma time_time_grows :
  forall (Q : io -> Prop) (clock : nat -> float),
    respects (grows Q) (time_time clock).
Proof.
  intros Q clock h. cbn. exists [].
  split; [symmetry; apply app_nil_r | constructor].
Qed.

Lemma modify_status :
  forall f : MavlinkHandler -> MavlinkHandler,
    (forall h, status_kept h (f h)) -> respects status_kept (modify f).
Proof. intros f Hf h. apply Hf. Qed.

(** Walks through the code of a method with the rules above. *)
Ltac walk :=
  repeat match goal with
    | |- forall _, _ => intro
    | |- respects _ (if ?b then _ else _) => destruct b
    | |- respects _ (match ?x with _ => _ end) => destruct x
    | |- respects _ (mret _) => apply respects_ret
    | |- respects _ (gets _) => apply respects_gets
    | |- respects _ pending_reads => apply respects_gets
    | |- respects _ (lift _) => apply respects_lift
    | |- respects _ (mbind _ _) => apply respects_bind
    | |- respects _ (try_except _ _) => apply respects_try
    | |- respects _ (while_true _ _) => apply respects_while
    | |- respects (grows _) (recv_match _) =>
        apply recv_match_grows; intro; exact I
    | |- respects (grows _) recv_match_nonblocking =>
        apply recv_nonblocking_grows; intro; exact I
    | |- respects (grows _) (send _) => apply send_grows; exact I
    | |- respects (grows _) (time_time _) => apply time_time_grows
    | |- respects (grows _) (modify _) =>
        apply modify_grows; intro; reflexivity
    | |- respects (grows _) (update_telemetry_data _) =>
        apply modify_grows; intro; reflexivity
    | |- respects status_kept (recv_match _) => apply recv_match_status
    | |- respects status_kept (send _) => apply send_status
    | |- respects status_kept (modify _) =>
        apply modify_status; intro; repeat split
    end.

Lemma guard_connected :
  forall (A : Type) (a : A) (body : M A) (h : MavlinkHandler),
    (c ← gets connected; if negb c then mret a else body) h
    = if connected h then body h else Returned a h.
Proof.
  intros A a body h. unfold gets, mbind, M_bind.
  destruct (connected h); reflexivity.
Qed.

Lemma bind_send :
  forall (A : Type) (f : frame) (k : unit -> M A) (h : MavlinkHandler),
    (send f ≫= k) h
    = if tx_ok (master h)
      then k tt (set_master
                   (set_trace (trace (master h) ++ [Sent f]) (master h)) h)
      else Raised LinkError h.
Proof.
  intros A f k h. unfold send, mbind, M_bind.
  destruct (tx_ok (master h)); reflexivity.
Qed.

Lemma reads_send_nothing :
  forall h h' : MavlinkHandler,
    grows is_read h h' -> sent_frames h' = sent_frames h.
Proof.
  intros h h' (new & Hlog & Hread). unfold sent_frames.
  rewrite Hlog, omap_app.
  assert (Hnil : omap (fun e => match e with
                                | Sent f => Some f
                                | Received _ => None
                                end) new = []).
  { clear Hlog. induction Hread as [| e new He _ IH]; [reflexivity |].
    destruct e as [f | m]; [destruct He | exact IH]. }
  rewrite Hnil. apply app_nil_r.
Qed.

(** ** Polling *)

Lemma process_message_reads :
  forall (mavutil : mavlink_library) (clock : nat -> float) (msg : message),
    respects (grows is_read) (_process_message mavutil clock msg).
Proof.
  intros mavutil clock msg. unfold _process_message; cbv zeta. walk.
Qed.

Lemma update_telemetry_reads :
  forall (mavutil : mavlink_library) (clock : nat -> float),
    respects (grows is_read) (update_telemetry mavutil clock).
Proof.
  intros mavutil clock.
  unfold update_telemetry, drain_link, pending_reads, update_telemetry_turn.
  pose proof (process_message_reads mavutil clock) as Hp.
  repeat first [ apply Hp | progress walk ].
Qed.

(** X7: a poll never hands a frame to the transport, whatever the state of
    the handler and whatever is pending on the link, read faults and
    frames of any kind included: when it ends, the frames sent so far are
    the ones sent before the call. *)
Theorem poll_never_transmits :
  forall (mavutil : mavlink_library) (clock : nat -> float)
         (h : MavlinkHandler),
    sent_frames (final_state (update_telemetry mavutil clock h))
    = sent_frames h.
Proof.
  intros mavutil clock h.
  apply reads_send_nothing, update_telemetry_reads.
Qed.

(** ** Uploading, on any link *)

Lemma no_item_sent :
  forall new : list io, Forall no_item new -> items_sent new = [].
Proof.
  intros new Hnew. induction Hnew as [| e new He _ IH]; [reflexivity |].
  destruct e as [[] | m]; cbn in *; try contradiction; exact IH.
Qed.

Lemma items_from_refl :
  forall (i : Z) (n : nat) (h : MavlinkHandler), items_from i n h h.
Proof.
  intros i n h. exists [], 0%nat.
  split; [symmetry; apply app_nil_r | split; [lia | reflexivity]].
Qed.

Lemma quiet_items :
  forall (i : Z) (n : nat) (x y : MavlinkHandler),
    grows no_item x y -> items_from i n x y.
Proof.
  intros i n x y (new & Hlog & Hq). exists new, 0%nat.
  split; [exact Hlog | split; [lia | apply no_item_sent, Hq]].
Qed.

Lemma quiet_then_items :
  forall (i : Z) (n : nat) (x y z : MavlinkHandler),
    grows no_item x y -> items_from i n y z -> items_from i n x z.
Proof.
  intros i n x y z (n1 & H1 & Hq) (n2 & k & H2 & Hk & Hi).
  exists (n1 ++ n2)%list, k. split; [| split; [exact Hk |]].
  - rewrite H2, H1, app_assoc. reflexivity.
  - unfold items_sent in *. rewrite omap_app.
    fold (items_sent n1). rewrite (no_item_sent n1 Hq). exact Hi.
Qed.

Lemma items_then_quiet :
  forall (i : Z) (n : nat) (x y z : MavlinkHandler),
    items_from i n x y -> grows no_item y z -> items_from i n x z.
Proof.
  intros i n x y z (n1 & k & H1 & Hk & Hi) (n2 & H2 & Hq).
  exists (n1 ++ n2)%list, k. split; [| split; [exact Hk |]].
  - rewrite H2, H1, app_assoc. reflexivity.
  - unfold items_sent in *. rewrite omap_app, Hi.
    fold (items_sent n2). rewrite (no_item_sent n2 Hq). apply app_nil_r.
Qed.

Lemma item_then_items :
  forall (i : Z) (n : nat) (item : mission_item) (x y z : MavlinkHandler),
    item_seq item = i ->
    trace (master y) = (trace (master x) ++ [Sent (MISSION_ITEM item)])%list ->
    items_from (i + 1) n y z -> items_from i (S n) x z.
Proof.
  intros i n item x y z Hseq H1 (n2 & k & H2 & Hk & Hi).
  exists (Sent (MISSION_ITEM item) :: n2), (S k).
  split; [| split; [lia |]].
  - rewrite H2, H1, <- app_assoc. reflexivity.
  - cbn. rewrite Hseq. f_equal. exact Hi.
Qed.

Section Upload.

Variable mavutil : mavlink_library.

(** The item loop sends the items [i], [i + 1], ... in this order and
    stops at the first send or read that fails, at the first
    acknowledgment, or when the list is exhausted. *)
Lemma send_waypoints_items :
  forall (wps : list (gmap string value)) (i : Z),
    respects (items_from i (length wps)) (send_waypoints mavutil i wps).
Proof.
  induction wps as [| wp rest IH]; intros i h.
  - apply items_from_refl.
  - cbn [send_waypoints length].
    unfold gets at 1 2. unfold mbind at 1 2, M_bind at 1 2.
    rewrite bind_send.
    destruct (tx_ok (master h)); [| apply items_from_refl].
    match goal with
    | |- items_from _ _ _ (final_state (_ ?y)) =>
        match y with
        | context [Sent (MISSION_ITEM ?item)] =>
            apply (item_then_items i (length rest) item h y);
              [reflexivity | reflexivity |]
        end
    end.
    apply (respects_then _ _ (grows no_item)
             (items_from (i + 1) (length rest))
             (items_from (i + 1) (length rest))).
    + intros x y. apply quiet_items.
    + intros x y z. apply quiet_then_items.
    + walk.
    + intros msg. destruct (String.eqb _ _).
      * intros h1. apply items_from_refl.
      * apply IH.
Qed.

Lemma await_request_turn_quiet :
  forall Q : io -> Prop,
    (forall m, Q (Received m)) -> respects (grows Q) await_request_turn.
Proof.
  intros Q HQ. unfold await_request_turn. apply respects_bind.
  - apply recv_match_grows, HQ.
  - walk.
Qed.

Lemma upload_mission_items :
  forall wps : list (gmap string value),
    respects (items_from 0 (length wps)) (upload_mission mavutil wps).
Proof.
  intros wps. unfold upload_mission.
  assert (Hsub : forall x y, grows no_item x y ->
                             items_from 0 (length wps) x y)
    by (intros x y; apply quiet_items).
  assert (Hcomp : forall x y z, grows no_item x y ->
                                items_from 0 (length wps) y z ->
                                items_from 0 (length wps) x z)
    by (intros x y z; apply quiet_then_items).
  apply (respects_then _ _ (grows no_item) (items_from 0 (length wps))
           (items_from 0 (length wps))); [exact Hsub | exact Hcomp | walk |].
  intros c. destruct (negb c); [intros h; apply items_from_refl |].
  apply respects_try_ret.
  repeat (apply (respects_then _ _ (grows no_item)
                   (items_from 0 (length wps)) (items_from 0 (length wps)));
          [exact Hsub | exact Hcomp
          | solve [apply respects_while, await_request_turn_quiet;
                   intro; exact I
                  | walk]
          | intro]).
  apply (respects_then _ _ (items_from 0 (length wps)) (grows no_item)
           (items_from 0 (length wps))).
  - auto.
  - intros x y z. apply items_then_quiet.
  - apply send_waypoints_items.
  - walk.
Qed.

End Upload.

(** X8: whatever the link delivers (frames of any kind in any order, read
    faults, refused sends, nothing at all) and however the call ends
    (success, failure or an endless wait), the items an upload of N
    waypoints has handed to the transport are the items 0, 1, ..., k - 1
    in this order for some k <= N: no item is sent twice, skipped or sent
    out of order, and the sequence numbers requested by the vehicle play
    no part. *)
Theorem upload_sends_a_prefix :
  forall (mavutil : mavlink_library) (wps : list (gmap string value))
         (h : MavlinkHandler),
    exists (new : list io) (k : nat),
      trace (master (final_state (upload_mission mavutil wps h)))
      = (trace (master h) ++ new)%list /\
      (k <= length wps)%nat /\
      items_sent new = indices 0 k.
Proof.
  intros mavutil wps h. exact (upload_mission_items mavutil wps h).
Qed.

(** ** Fetching the parameters, on any link *)

Lemma get_parameters_turn_reads :
  forall Q : io -> Prop,
    (forall m, Q (Received m)) -> respects (grows Q) get_parameters_turn.
Proof.
  intros Q HQ. unfold get_parameters_turn. apply respects_bind.
  - apply recv_match_grows, HQ.
  - walk.
Qed.

Lemma param_fetch_all_outcome :
  forall h : MavlinkHandler,
    param_fetch_all h
    = if param_fetch_recent h then Returned tt h
      else if tx_ok (master h)
           then Returned tt
                  (set_master
                     (set_trace (trace (master h) ++ [Sent PARAM_REQUEST_LIST])
                        (master h))
                     (set_param_fetch_recent true h))
           else Raised LinkError (set_param_fetch_recent true h).
Proof.
  intros h. unfold param_fetch_all. rewrite bind_gets_recent.
  destruct (param_fetch_recent h); [reflexivity |].
  unfold modify, send, mbind, M_bind. cbn [master set_param_fetch_recent].
  destruct (tx_ok (master h)); reflexivity.
Qed.

(** X9: [get_parameters] asks for the parameter list at most once and
    sends nothing else, whatever the link delivers and however the call
    ends: the frames sent grow by one PARAM_REQUEST_LIST when the handler
    is connected, the link has not asked in the last two seconds and the
    send is accepted, and do not grow otherwise. *)
Theorem get_parameters_requests_once :
  forall h : MavlinkHandler,
    sent_frames (final_state (get_parameters h))
    = (sent_frames h ++
       if connected h && negb (param_fetch_recent h) && tx_ok (master h)
       then [PARAM_REQUEST_LIST] else [])%list.
Proof.
  intros h. unfold get_parameters. rewrite guard_connected.
  destruct (connected h); cbn [andb]; [| cbn; rewrite app_nil_r; reflexivity].
  unfold try_except.
  match goal with
  | |- context [(param_fetch_all ≫= ?k) h] =>
      assert (Hrest : respects (grows is_read) (k tt))
        by (cbv beta; walk; apply get_parameters_turn_reads; intro; exact I);
      set (rest := k) in *
  end.
  unfold mbind at 1, M_bind at 1. rewrite param_fetch_all_outcome.
  destruct (param_fetch_recent h); cbn [negb andb].
  - specialize (Hrest h). apply reads_send_nothing in Hrest.
    rewrite app_nil_r, <- Hrest. destruct (rest tt h); reflexivity.
  - destruct (tx_ok (master h)).
    + match goal with
      | |- context [rest tt ?h1] =>
          transitivity (sent_frames h1);
            [| apply (sent_frames_after_send PARAM_REQUEST_LIST
                        (set_param_fetch_recent true h))];
          specialize (Hrest h1); apply reads_send_nothing in Hrest;
          rewrite <- Hrest; destruct (rest tt h1); reflexivity
      end.
    + rewrite app_nil_r. reflexivity.
Qed.

(** ** Commands and the status of the session *)

Lemma await_request_turn_status : respects status_kept await_request_turn.
Proof. unfold await_request_turn. walk. Qed.

Lemma get_parameters_turn_status : respects status_kept get_parameters_turn.
Proof. unfold get_parameters_turn. walk. Qed.

Lemma param_fetch_all_status : respects status_kept param_fetch_all.
Proof. unfold param_fetch_all. walk. Qed.

Lemma send_waypoints_status :
  forall (mavutil : mavlink_library) (wps : list (gmap string value))
         (i : Z),
    respects status_kept (send_waypoints mavutil i wps).
Proof.
  intros mavutil wps. induction wps as [| wp rest IH]; intros i.
  - cbn. walk.
  - cbn [send_waypoints]. walk. apply IH.
Qed.

(** X10: a command never touches what tells whether the session is up:
    however [set_mode], [upload_mission] and [get_parameters] end (success,
    failure after a refused send or a read fault, or an endless wait),
    they leave [connected], the telemetry snapshot, the time of the last
    heartbeat and the vehicle's identity as they were.  A command that
    failed on the link is therefore seen by the next poll only. *)
Theorem commands_keep_status :
  forall (mavutil : mavlink_library) (name : string)
         (wps : list (gmap string value)) (h : MavlinkHandler),
    status_kept h (final_state (set_mode mavutil name h)) /\
    status_kept h (final_state (upload_mission mavutil wps h)) /\
    status_kept h (final_state (get_parameters h)).
Proof.
  intros mavutil name wps h. split; [| split].
  - revert h. change (respects status_kept (set_mode mavutil name)).
    unfold set_mode; cbv zeta. walk.
  - revert h. change (respects status_kept (upload_mission mavutil wps)).
    unfold upload_mission. walk.
    + apply await_request_turn_status.
    + apply send_waypoints_status.
  - revert h. change (respects status_kept get_parameters).
    unfold get_parameters. walk;
      first [apply param_fetch_all_status | apply get_parameters_turn_status].
Qed.

(** * Waits that never end *)

Lemma recv_match_starves :
  forall (types : list string) (h0 : MavlinkHandler) (pre : list message)
         (tr : list io) (ps : gmap string float),
    Forall (fun msg => existsb (String.eqb (get_type msg)) types = false)
           pre ->
    recv_match types (linked h0 (map RxFrame pre) tr ps)
    = Blocked (linked h0 [] (tr ++ map Received pre)
                 (fold_left absorb pre ps)).
Proof.
  intros types h0 pre.
  induction pre as [| msg pre IH]; intros tr ps Hpre.
  - cbn [map fold_left]. rewrite app_nil_r. reflexivity.
  - inversion Hpre as [| ? ? Hmsg Hrest]; subst.
    cbn [map fold_left]. rewrite (recv_match_skip _ _ _ _ _ _ Hmsg).
    rewrite (IH _ _ Hrest), <- app_assoc. reflexivity.
Qed.

(** The loops of the handshakes, when no frame that ends the wait is
    pending. *)
Section Starving.

Variable h0 : MavlinkHandler.
Variable body : M bool.
Variable kinds : list string.
Variable stop : message -> bool.

Hypothesis body_on_frame :
  forall (msg : message) (rest : list rx) (tr : list io)
         (ps : gmap string float),
    well_formed msg ->
    body (linked h0 (RxFrame msg :: rest) tr ps)
    = if existsb (String.eqb (get_type msg)) kinds
      then Returned (stop msg)
             (linked h0 rest (tr ++ [Received msg]) (absorb ps msg))
      else body (linked h0 rest (tr ++ [Received msg]) (absorb ps msg)).
Hypothesis body_on_empty :
  forall (tr : list io) (ps : gmap string float),
    body (linked h0 [] tr ps) = Blocked (linked h0 [] tr ps).
Hypothesis body_on_fault :
  forall (rest : list rx) (tr : list io) (ps : gmap string float),
    body (linked h0 (RxFault :: rest) tr ps)
    = Raised LinkError (linked h0 rest tr ps).

Lemma wait_loop_starves :
  forall (pre : list message) (turns : nat) (tr : list io)
         (ps : gmap string float),
    Forall (fun msg => well_formed msg /\ stop msg = false) pre ->
    (length pre < turns)%nat ->
    while_true turns body (linked h0 (map RxFrame pre) tr ps)
    = Blocked (linked h0 [] (tr ++ map Received pre)
                 (fold_left absorb pre ps)).
Proof.
  induction pre as [| msg pre IH]; intros turns tr ps Hpre Hlen;
    (destruct turns as [| n]; [simpl in Hlen; lia |]);
    rewrite while_true_step; cbn [map fold_left].
  - rewrite body_on_empty, app_nil_r. reflexivity.
  - inversion Hpre as [| ? ? [Hmsg Hnot] Hrest]; subst.
    rewrite (body_on_frame _ _ _ _ Hmsg).
    destruct (existsb (String.eqb (get_type msg)) kinds).
    + rewrite Hnot, (IH n _ _ Hrest) by (simpl in Hlen; lia).
      rewrite <- app_assoc. reflexivity.
    + rewrite <- while_true_step.
      rewrite (IH (S n) _ _ Hrest) by (simpl in Hlen; lia).
      rewrite <- app_assoc. reflexivity.
Qed.

Lemma wait_loop_faults :
  forall (pre : list message) (rest : list rx) (turns : nat)
         (tr : list io) (ps : gmap string float),
    Forall (fun msg => well_formed msg /\ stop msg = false) pre ->
    (length pre < turns)%nat ->
    while_true turns body
      (linked h0 (map RxFrame pre ++ RxFault :: rest) tr ps)
    = Raised LinkError
        (linked h0 rest (tr ++ map Received pre) (fold_left absorb pre ps)).
Proof.
  induction pre as [| msg pre IH]; intros rest turns tr ps Hpre Hlen;
    (destruct turns as [| n]; [simpl in Hlen; lia |]);
    rewrite while_true_step; cbn [map fold_left app].
  - rewrite body_on_fault, app_nil_r. reflexivity.
  - inversion Hpre as [| ? ? [Hmsg Hnot] Hrest]; subst.
    rewrite (body_on_frame _ _ _ _ Hmsg).
    destruct (existsb (String.eqb (get_type msg)) kinds).
    + rewrite Hnot, (IH _ n _ _ Hrest) by (simpl in Hlen; lia).
      rewrite <- app_assoc. reflexivity.
    + rewrite <- while_true_step.
      rewrite (IH _ (S n) _ _ Hrest) by (simpl in Hlen; lia).
      rewrite <- app_assoc. reflexivity.
Qed.

End Starving.

Lemma bind_gets :
  forall (A B : Type) (f : MavlinkHandler -> A) (k : A -> M B)
         (h : MavlinkHandler),
    (gets f ≫= k) h = k (f h) h.
Proof. reflexivity. Qed.

Lemma upload_mission_linked :
  forall (mavutil : mavlink_library) (h0 : MavlinkHandler)
         (wps : list (gmap string value)) (pending : list rx)
         (tr : list io) (ps : gmap string float),
    connected h0 = true ->
    forall h1,
      recv_match ["MISSION_ACK"]
        (linked h0 pending
           (tr ++ [Sent (MISSION_CLEAR_ALL (vehicle_system h0)
                           (vehicle_component h0))]) ps)
      = Blocked h1 ->
      upload_mission mavutil wps (linked h0 pending tr ps) = Blocked h1.
Proof.
  intros mavutil h0 wps pending tr ps Hc h1 Hb.
  unfold upload_mission. rewrite guard_connected.
  cbn [connected linked set_master]. rewrite Hc.
  unfold try_except. rewrite !bind_gets, bind_send.
  change (tx_ok (master (linked h0 pending tr ps))) with true. cbv iota beta.
  unfold mbind at 1, M_bind at 1.
  match goal with
  | |- context [recv_match ?t ?s] =>
      change (recv_match t s)
        with (recv_match ["MISSION_ACK"]
                (linked h0 pending
                   (tr ++ [Sent (MISSION_CLEAR_ALL (vehicle_system h0)
                                   (vehicle_component h0))]) ps))
  end.
  rewrite Hb. reflexivity.
Qed.

(** X11: nothing bounds the wait for the acknowledgment of the clear.  On
    a connected handler whose link accepts sends, when no MISSION_ACK frame
    and no read fault is pending, [upload_mission] never returns: it has
    sent the clear request and nothing else, and has read and dropped
    every pending frame. *)
Theorem upload_waits_for_clear_ack :
  forall (mavutil : mavlink_library) (wps : list (gmap string value))
         (h : MavlinkHandler) (pre : list message),
    connected h = true ->
    tx_ok (master h) = true ->
    inbox (master h) = map RxFrame pre ->
    Forall (fun msg => get_type msg <> "MISSION_ACK") pre ->
    exists h',
      upload_mission mavutil wps h = Blocked h' /\
      trace (master h') =
        (trace (master h)
         ++ Sent (MISSION_CLEAR_ALL (vehicle_system h) (vehicle_component h))
            :: map Received pre)%list /\
      inbox (master h') = [].
Proof.
  intros mavutil wps h pre Hc Htx Hin Hpre.
  replace (upload_mission mavutil wps h)
    with (upload_mission mavutil wps
            (linked h (inbox (master h)) (trace (master h))
               (params (master h))))
    by (rewrite <- (linked_self h Htx); reflexivity).
  rewrite Hin. eexists. split.
  - apply (upload_mission_linked mavutil h wps _ _ _ Hc).
    apply recv_match_starves.
    eapply Forall_impl; [exact Hpre |].
    intros msg Hne. cbn. apply orb_false_iff. split; [| reflexivity].
    apply String.eqb_neq. exact Hne.
  - cbn [master linked set_master trace inbox].
    rewrite <- app_assoc. split; reflexivity.
Qed.

Lemma upload_waits_for_clear_ack_witness :
  exists h',
    upload_mission common_dialect [first_leg]
      (station [RxFrame (HEARTBEAT 81 4);
                RxFrame (MISSION_REQUEST 255 190 0)] true)
    = Blocked h' /\
    sent_frames h' = [MISSION_CLEAR_ALL (VInt 1) (VInt 1)].
Proof.
  destruct (upload_waits_for_clear_ack common_dialect [first_leg]
              (station [RxFrame (HEARTBEAT 81 4);
                        RxFrame (MISSION_REQUEST 255 190 0)] true)
              [HEARTBEAT 81 4; MISSION_REQUEST 255 190 0])
    as (h' & Hrun & Htrace & _).
  - reflexivity.
  - reflexivity.
  - reflexivity.
  - repeat constructor; discriminate.
  - exists h'. split; [exact Hrun |].
    unfold sent_frames. rewrite Htrace. reflexivity.
Defined.

Lemma await_request_turn_on_empty :
  forall (h0 : MavlinkHandler) (tr : list io) (ps : gmap string float),
    await_request_turn (linked h0 [] tr ps) = Blocked (linked h0 [] tr ps).
Proof. reflexivity. Qed.

Lemma get_parameters_turn_on_empty :
  forall (h0 : MavlinkHandler) (tr : list io) (ps : gmap string float),
    get_parameters_turn (linked h0 [] tr ps) = Blocked (linked h0 [] tr ps).
Proof. reflexivity. Qed.

Lemma get_parameters_turn_on_fault :
  forall (h0 : MavlinkHandler) (rest : list rx) (tr : list io)
         (ps : gmap string float),
    get_parameters_turn (linked h0 (RxFault :: rest) tr ps)
    = Raised LinkError (linked h0 rest tr ps).
Proof. reflexivity. Qed.

(** X12: nothing bounds the wait for the first item request either.  Once
    the clear is acknowledged, [upload_mission] announces the number of
    waypoints and waits for a MISSION_REQUEST addressed to the station;
    when every frame that follows is something else (an acknowledgment, a
    request addressed elsewhere, telemetry), the call never returns and no
    item is sent.  This is so for an empty list too, for which a vehicle
    has no item to request. *)
Theorem upload_waits_for_request :
  forall (mavutil : mavlink_library) (wps : list (gmap string value))
         (h : MavlinkHandler) (strays : list message),
    connected h = true ->
    tx_ok (master h) = true ->
    inbox (master h) = RxFrame MISSION_ACK :: map RxFrame strays ->
    Forall (stray h) strays ->
    exists h',
      upload_mission mavutil wps h = Blocked h' /\
      trace (master h') =
        (trace (master h)
         ++ [Sent (MISSION_CLEAR_ALL (vehicle_system h) (vehicle_component h));
             Received MISSION_ACK;
             Sent (MISSION_COUNT (vehicle_system h) (vehicle_component h)
                     (Z.of_nat (length wps)) 0)]
         ++ map Received strays)%list /\
      inbox (master h') = [].
Proof.
  intros mavutil wps h strays Hc Htx Hin Hstrays.
  replace (upload_mission mavutil wps h)
    with (upload_mission mavutil wps
            (linked h (inbox (master h)) (trace (master h))
               (params (master h))))
    by (rewrite <- (linked_self h Htx); reflexivity).
  rewrite Hin, (upload_mission_unfold mavutil h _ _ _ _ Hc).
  rewrite (wait_loop_starves h await_request_turn ["MISSION_REQUEST"]
             (addressed h)).
  - eexists. split; [reflexivity |].
    cbn [master linked set_master trace inbox].
    rewrite <- app_assoc. split; reflexivity.
  - intros msg rest tr ps Hwf.
    apply await_request_turn_on_frame. exact Hwf.
  - apply await_request_turn_on_empty.
  - exact Hstrays.
  - rewrite length_map. lia.
Qed.

Lemma upload_waits_for_request_witness :
  exists h',
    upload_mission common_dialect []
      (station [RxFrame MISSION_ACK; RxFrame MISSION_ACK] true)
    = Blocked h' /\
    sent_frames h' =
      [MISSION_CLEAR_ALL (VInt 1) (VInt 1);
       MISSION_COUNT (VInt 1) (VInt 1) 0 0].
Proof.
  destruct (upload_waits_for_request common_dialect []
              (station [RxFrame MISSION_ACK; RxFrame MISSION_ACK] true)
              [MISSION_ACK])
    as (h' & Hrun & Htrace & _).
  - reflexivity.
  - reflexivity.
  - reflexivity.
  - repeat constructor.
  - exists h'. split; [exact Hrun |].
    unfold sent_frames. rewrite Htrace. reflexivity.
Defined.

(** X13: nothing bounds the wait for the last parameter.  When none of the
    pending frames is a PARAM_VALUE whose index is its count minus one,
    and no read fault is pending, [get_parameters] never returns, whether
    it has sent the list request or, the link having asked less than two
    seconds ago, has not; the frames are read all the same, and the table
    kept by the link holds every value received. *)
Theorem get_parameters_waits_for_last_index :
  forall (h : MavlinkHandler) (pre : list message),
    connected h = true ->
    tx_ok (master h) = true ->
    inbox (master h) = map RxFrame pre ->
    Forall passes pre ->
    exists h',
      get_parameters h = Blocked h' /\
      trace (master h') =
        (trace (master h) ++ list_request h ++ map Received pre)%list /\
      params (master h') = fold_left absorb pre (params (master h)) /\
      inbox (master h') = [].
Proof.
  intros h pre Hc Htx Hin Hpre.
  replace (get_parameters h)
    with (get_parameters
            (linked h (inbox (master h)) (trace (master h))
               (params (master h))))
    by (rewrite <- (linked_self h Htx); reflexivity).
  rewrite Hin, (get_parameters_unfold h _ _ _ Hc).
  rewrite (wait_loop_starves (set_param_fetch_recent true h)
             get_parameters_turn param_kinds is_terminal).
  - eexists. split; [reflexivity |].
    cbn [master linked set_master trace inbox params].
    rewrite <- app_assoc. repeat split; reflexivity.
  - intros msg rest tr ps Hwf.
    apply get_parameters_turn_on_frame. exact Hwf.
  - apply get_parameters_turn_on_empty.
  - exact Hpre.
  - rewrite length_map. lia.
Qed.

Lemma get_parameters_waits_for_last_index_witness :
  exists h',
    get_parameters
      (station [RxFrame (PARAM_VALUE "ARMING_CHECK" 1 3 0);
                RxFrame (PARAM_VALUE "BATT_CAPACITY" 3300 3 1)] true)
    = Blocked h' /\
    params (master h') !! "BATT_CAPACITY" = Some 3300%float.
Proof.
  destruct (get_parameters_waits_for_last_index
              (station [RxFrame (PARAM_VALUE "ARMING_CHECK" 1 3 0);
                        RxFrame (PARAM_VALUE "BATT_CAPACITY" 3300 3 1)] true)
              [PARAM_VALUE "ARMING_CHECK" 1 3 0;
               PARAM_VALUE "BATT_CAPACITY" 3300 3 1])
    as (h' & Hrun & _ & Hparams & _).
  - reflexivity.
  - reflexivity.
  - reflexivity.
  - repeat constructor.
  - exists h'. split; [exact Hrun |]. rewrite Hparams. reflexivity.
Defined.

(** X14: a read fault while the parameters come in makes [get_parameters]
    answer the empty table, not the part received: the values read before
    the fault are in the table kept by the link, the frames behind the
    fault stay unread, and the handler remains connected. *)
Theorem get_parameters_fault_answers_empty :
  forall (h : MavlinkHandler) (pre : list message) (rest : list rx),
    connected h = true ->
    tx_ok (master h) = true ->
    inbox (master h) = (map RxFrame pre ++ RxFault :: rest)%list ->
    Forall passes pre ->
    exists h',
      get_parameters h = Returned ∅ h' /\
      params (master h') = fold_left absorb pre (params (master h)) /\
      inbox (master h') = rest /\
      connected h' = true.
Proof.
  intros h pre rest Hc Htx Hin Hpre.
  replace (get_parameters h)
    with (get_parameters
            (linked h (inbox (master h)) (trace (master h))
               (params (master h))))
    by (rewrite <- (linked_self h Htx); reflexivity).
  rewrite Hin, (get_parameters_unfold h _ _ _ Hc).
  rewrite (wait_loop_faults (set_param_fetch_recent true h)
             get_parameters_turn param_kinds is_terminal).
  - eexists. split; [reflexivity |].
    cbn [master linked set_master inbox params connected].
    repeat split; try reflexivity. exact Hc.
  - intros msg rest' tr ps Hwf.
    apply get_parameters_turn_on_frame. exact Hwf.
  - apply get_parameters_turn_on_fault.
  - exact Hpre.
  - rewrite length_app, length_map. simpl. lia.
Qed.

Lemma get_parameters_fault_answers_empty_witness :
  exists h',
    get_parameters
      (station [RxFrame (PARAM_VALUE "ARMING_CHECK" 1 3 0); RxFault;
                RxFrame (PARAM_VALUE "WPNAV_SPEED" 500 3 2)] true)
    = Returned ∅ h' /\
    params (master h') !! "ARMING_CHECK" = Some 1%float /\
    inbox (master h') = [RxFrame (PARAM_VALUE "WPNAV_SPEED" 500 3 2)].
Proof.
  destruct (get_parameters_fault_answers_empty
              (station [RxFrame (PARAM_VALUE "ARMING_CHECK" 1 3 0); RxFault;
                        RxFrame (PARAM_VALUE "WPNAV_SPEED" 500 3 2)] true)
              [PARAM_VALUE "ARMING_CHECK" 1 3 0]
              [RxFrame (PARAM_VALUE "WPNAV_SPEED" 500 3 2)])
    as (h' & Hrun & Hparams & Hinbox & _).
  - reflexivity.
  - reflexivity.
  - reflexivity.
  - repeat constructor.
  - exists h'. split; [exact Hrun |]. split; [| exact Hinbox].
    rewrite Hparams. reflexivity.
Defined.

(** * What reaches the vehicle of a waypoint *)

Lemma bind_ext :
  forall (A B : Type) (c : M A) (k k' : A -> M B),
    (forall a h, k a h = k' a h) -> forall h, (c ≫= k) h = (c ≫= k') h.
Proof.
  intros A B c k k' Hk h. unfold mbind, M_bind.
  destruct (c h) as [a h1 | e h1 | h1]; [apply Hk | reflexivity ..].
Qed.

Lemma try_except_ext :
  forall (A : Type) (body body' : M A) (handler : exn -> M A),
    (forall h, body h = body' h) ->
    forall h, try_except body handler h = try_except body' handler h.
Proof.
  intros A body body' handler Hb h. unfold try_except. rewrite Hb.
  reflexivity.
Qed.

Lemma waypoint_item_agree :
  forall (mavutil : mavlink_library) (vs vc : value) (i : Z)
         (wp wp' : gmap string value),
    agree_on item_keys wp wp' ->
    waypoint_item mavutil vs vc i wp = waypoint_item mavutil vs vc i wp'.
Proof.
  intros mavutil vs vc i wp wp' Hagree.
  unfold agree_on, item_keys in Hagree.
  repeat (apply Forall_cons in Hagree; destruct Hagree as [? Hagree]).
  unfold waypoint_item, wp_get. congruence.
Qed.

Lemma send_waypoints_agree :
  forall (mavutil : mavlink_library) (wps wps' : list (gmap string value)),
    Forall2 (agree_on item_keys) wps wps' ->
    forall (i : Z) (h : MavlinkHandler),
      send_waypoints mavutil i wps h = send_waypoints mavutil i wps' h.
Proof.
  intros mavutil wps wps' Hall.
  induction Hall as [| wp wp' rest rest' Hwp _ IH]; intros i h;
    [reflexivity |].
  cbn [send_waypoints]. rewrite !bind_gets.
  rewrite (waypoint_item_agree mavutil _ _ i wp wp' Hwp).
  apply bind_ext. intros _ h1. apply bind_ext. intros msg h2.
  destruct (String.eqb _ _); [reflexivity | apply IH].
Qed.

(** X15: of a waypoint dictionary, [upload_mission] reads the keys frame,
    p1, p2, p3, x, y and z and no other: two lists of dictionaries that
    agree on these seven keys, entry by entry, give the same outcome and
    the same frames on every link.  What the planner stores under command,
    p4 and autocontinue therefore never reaches the vehicle. *)
Theorem upload_reads_seven_keys :
  forall (mavutil : mavlink_library) (wps wps' : list (gmap string value))
         (h : MavlinkHandler),
    Forall2 (agree_on item_keys) wps wps' ->
    upload_mission mavutil wps h = upload_mission mavutil wps' h.
Proof.
  intros mavutil wps wps' h Hall.
  unfold upload_mission. rewrite (Forall2_length _ _ _ Hall).
  revert h. apply bind_ext. intros c h.
  destruct (negb c); [reflexivity |].
  revert h. apply try_except_ext.
  repeat (apply bind_ext; intros ? ?).
  unfold mbind, M_bind.
  rewrite (send_waypoints_agree mavutil wps wps' Hall). reflexivity.
Qed.

Lemma upload_reads_seven_keys_witness :
  upload_mission common_dialect [first_leg] (station one_item_answers true)
  = upload_mission common_dialect
      [<["autocontinue" := VInt 0]>
         (<["p4" := VFloat 90]> (<["command" := VInt 16]> first_leg))]
      (station one_item_answers true).
Proof.
  apply upload_reads_seven_keys.
  repeat constructor; vm_compute; reflexivity.
Defined.

(** * Waypoints from dictionaries *)

Lemma required_in_dom :
  forall d : gmap string value,
    required_fields ⊆ dom d <->
    is_Some (d !! "latitude") /\ is_Some (d !! "longitude") /\
    is_Some (d !! "altitude").
Proof.
  intros d. unfold required_fields. rewrite <- !elem_of_dom.
  set_unfold. split.
  - intros H. repeat split; apply H; tauto.
  - intros (H1 & H2 & H3) k [-> | [-> | [-> | []]]]; assumption.
Qed.

(** X17: [Waypoint.from_dict] builds a waypoint exactly from the
    dictionaries whose keys are field names and include latitude,
    longitude and altitude; every other dictionary (a key that is no
    field, or one of the three missing) raises TypeError. *)
Theorem from_dict_accepts_iff :
  forall d : gmap string value,
    (dom d ⊆ Waypoint.field_names /\ required_fields ⊆ dom d ->
     exists w, Waypoint.from_dict d = Ok w) /\
    (~ (dom d ⊆ Waypoint.field_names /\ required_fields ⊆ dom d) ->
     Waypoint.from_dict d = Err (TypeError "__init__")).
Proof.
  intros d. rewrite required_in_dom. unfold Waypoint.from_dict. split.
  - intros (Hsub & [la Hla] & [lo Hlo] & [al Hal]).
    rewrite (bool_decide_eq_true_2 _ Hsub), Hla, Hlo, Hal. cbn [negb].
    eexists. reflexivity.
  - intros Hnot. case_bool_decide as Hsub; cbn [negb]; [| reflexivity].
    destruct (d !! "latitude") as [la |]; [| reflexivity].
    destruct (d !! "longitude") as [lo |]; [| reflexivity].
    destruct (d !! "altitude") as [al |]; [| reflexivity].
    exfalso. apply Hnot. repeat split; try exact Hsub; eexists; reflexivity.
Qed.

Lemma from_dict_accepts_iff_witness :
  (exists w,
     Waypoint.from_dict
       (<["altitude" := VFloat 20]> (<["longitude" := VFloat 77.5]>
        (<["latitude" := VFloat 12.5]> ∅))) = Ok w) /\
  Waypoint.from_dict
    (<["alt" := VFloat 20]> (<["longitude" := VFloat 77.5]>
     (<["latitude" := VFloat 12.5]> ∅))) = Err (TypeError "__init__").
Proof.
  split.
  - apply (proj1 (from_dict_accepts_iff _)).
    split; apply (bool_decide_unpack _); vm_compute; exact I.
  - apply (proj2 (from_dict_accepts_iff _)).
    intros [Hsub _]. revert Hsub. apply (bool_decide_unpack _).
    vm_compute. exact I.
Defined.

(** Looks a literal key up in a dictionary written with inserts. *)
Ltac lookup_literal :=
  repeat (rewrite lookup_insert_eq
          || (rewrite lookup_insert_ne by discriminate)
          || rewrite lookup_empty).

(** X18: the dictionary of a waypoint built from a dictionary [d] is [d]
    completed with the defaults of the fields it leaves out: every entry
    of [d] is kept, and the seven optional fields get 0.0, 0, 5.0, 2.0,
    0.0, WAYPOINT and True where [d] has no entry for them. *)
Theorem from_dict_fills_defaults :
  forall (d : gmap string value) (w : Waypoint.t),
    Waypoint.from_dict d = Ok w ->
    Waypoint.to_dict w = d ∪ field_defaults.
Proof.
  intros d w H. unfold Waypoint.from_dict in H.
  case_bool_decide as Hsub; cbn [negb] in H; [| discriminate H].
  destruct (d !! "latitude") as [la |] eqn:Hla; [| discriminate H].
  destruct (d !! "longitude") as [lo |] eqn:Hlo; [| discriminate H].
  destruct (d !! "altitude") as [al |] eqn:Hal; [| discriminate H].
  injection H as <-.
  apply map_eq. intros k. rewrite lookup_union.
  unfold Waypoint.to_dict, field_defaults.
  cbn [Waypoint.latitude Waypoint.longitude Waypoint.altitude Waypoint.speed
       Waypoint.hold_time Waypoint.accept_radius Waypoint.pass_radius
       Waypoint.yaw_angle Waypoint.waypoint_type Waypoint.autocontinue].
  destruct (decide (k ∈ Waypoint.field_names)) as [Hk | Hk].
  - unfold Waypoint.field_names in Hk. set_unfold in Hk.
    repeat (destruct Hk as [-> | Hk]); try destruct Hk; try subst k;
      lookup_literal;
      rewrite ?Hla, ?Hlo, ?Hal;
      try reflexivity;
      match goal with
      | |- context [d !! ?key] => destruct (d !! key); reflexivity
      end.
  - assert (Hd : d !! k = None).
    { apply not_elem_of_dom. intros Hin. apply Hk, Hsub, Hin. }
    rewrite Hd.
    unfold Waypoint.field_names in Hk. set_unfold in Hk.
    rewrite !lookup_insert_ne by (intros <-; apply Hk; tauto).
    rewrite lookup_empty. reflexivity.
Qed.

Lemma from_dict_fills_defaults_witness :
  exists w,
    Waypoint.from_dict
      (<["hold_time" := VInt 30]> (<["altitude" := VFloat 20]>
       (<["longitude" := VFloat 77.5]> (<["latitude" := VFloat 12.5]> ∅))))
    = Ok w /\
    Waypoint.to_dict w !! "hold_time" = Some (VInt 30) /\
    Waypoint.to_dict w !! "accept_radius" = Some (VFloat 5).
Proof.
  destruct (Waypoint.from_dict
              (<["hold_time" := VInt 30]> (<["altitude" := VFloat 20]>
               (<["longitude" := VFloat 77.5]>
                (<["latitude" := VFloat 12.5]> ∅)))))
    as [w | e] eqn:E; [| vm_compute in E; discriminate E].
  exists w. split; [reflexivity |].
  rewrite (from_dict_fills_defaults _ _ E).
  split; vm_compute; reflexivity.
Defined.

(** * Editing the mission *)

Lemma bounds_inclusive :
  forall (index : Z) (n : nat),
    Z.leb 0 index && Z.leb index (Z.of_nat n) = true <->
    0 <= index <= Z.of_nat n.
Proof. intros index n. rewrite andb_true_iff, !Z.leb_le. tauto. Qed.

Lemma bounds_exclusive :
  forall (index : Z) (n : nat),
    Z.leb 0 index && Z.ltb index (Z.of_nat n) = true <->
    0 <= index < Z.of_nat n.
Proof. intros index n. rewrite andb_true_iff, Z.leb_le, Z.ltb_lt. tauto. Qed.

(** X19: [insert_waypoint] accepts exactly the indices from 0 to the
    number of waypoints, both included.  It then answers True, the new
    waypoint is found at that index, the waypoints before it keep their
    index and the others move up by one; the handler and the mission name
    are left alone.  Any other index, a negative one included, answers
    False and changes nothing. *)
Theorem insert_waypoint_spec :
  forall (index : Z) (wp : Waypoint.t) (self : MissionPlanner),
    (0 <= index <= Z.of_nat (length (waypoints self)) ->
     exists self',
       insert_waypoint index wp self = (true, self') /\
       length (waypoints self') = S (length (waypoints self)) /\
       waypoints self' !! Z.to_nat index = Some wp /\
       (forall j : nat,
          (j < Z.to_nat index)%nat ->
          waypoints self' !! j = waypoints self !! j) /\
       (forall j : nat,
          (Z.to_nat index <= j)%nat ->
          waypoints self' !! S j = waypoints self !! j) /\
       mav self' = mav self /\
       current_mission self' = current_mission self) /\
    (~ 0 <= index <= Z.of_nat (length (waypoints self)) ->
     insert_waypoint index wp self = (false, self)).
Proof.
  intros index wp self. unfold insert_waypoint. split.
  - intros Hin. rewrite (proj2 (bounds_inclusive _ _) Hin).
    eexists. split; [reflexivity |].
    cbn [waypoints set_waypoints mav current_mission].
    set (i := Z.to_nat index). set (l := waypoints self).
    assert (Hi : (i <= length l)%nat) by (unfold i, l; lia).
    assert (Hlen : length (take i l) = i)
      by (rewrite length_take; lia).
    split; [| split; [| split; [| split; [| split; reflexivity]]]].
    + rewrite length_app, Hlen. cbn [length]. rewrite length_drop. lia.
    + rewrite lookup_app_r by lia. rewrite Hlen, Nat.sub_diag. reflexivity.
    + intros j Hj. rewrite lookup_app_l by lia.
      apply lookup_take_lt. exact Hj.
    + intros j Hj. rewrite lookup_app_r by lia. rewrite Hlen.
      replace (S j - i)%nat with (S (j - i)) by lia.
      change ((wp :: drop i l) !! S (j - i)%nat)
        with (drop i l !! (j - i)%nat).
      rewrite lookup_drop. f_equal. lia.
  - intros Hout.
    destruct (Z.leb 0 index && Z.leb index _) eqn:E; [| reflexivity].
    apply bounds_inclusive in E. contradiction.
Qed.

Lemma insert_waypoint_spec_witness :
  (exists self',
     insert_waypoint 1 loiter_waypoint
       (Planner (station [] true) [takeoff_waypoint; takeoff_waypoint] "m")
     = (true, self') /\
     waypoints self' = [takeoff_waypoint; loiter_waypoint; takeoff_waypoint]) /\
  insert_waypoint (-1) loiter_waypoint
    (Planner (station [] true) [takeoff_waypoint; takeoff_waypoint] "m")
  = (false,
     Planner (station [] true) [takeoff_waypoint; takeoff_waypoint] "m").
Proof.
  split.
  - destruct (proj1 (insert_waypoint_spec 1 loiter_waypoint
                       (Planner (station [] true)
                          [takeoff_waypoint; takeoff_waypoint] "m")))
      as (self' & Hrun & _); [cbn; lia |].
    exists self'. split; [exact Hrun |].
    injection Hrun as <-. reflexivity.
  - apply (proj2 (insert_waypoint_spec (-1) loiter_waypoint
                    (Planner (station [] true)
                       [takeoff_waypoint; takeoff_waypoint] "m"))).
    cbn. lia.
Defined.

(** X20: [remove_waypoint] accepts exactly the indices of the waypoints
    present.  It then answers True, the mission is one waypoint shorter,
    the waypoints before the index keep theirs and the ones behind it move
    down by one.  Any other index answers False and changes nothing: the
    number of waypoints itself, every index on an empty mission, and the
    negative indices that [pop] alone would take. *)
Theorem remove_waypoint_spec :
  forall (index : Z) (self : MissionPlanner),
    (0 <= index < Z.of_nat (length (waypoints self)) ->
     exists self',
       remove_waypoint index self = (true, self') /\
       S (length (waypoints self')) = length (waypoints self) /\
       (forall j : nat,
          (j < Z.to_nat index)%nat ->
          waypoints self' !! j = waypoints self !! j) /\
       (forall j : nat,
          (Z.to_nat index <= j)%nat ->
          waypoints self' !! j = waypoints self !! S j) /\
       mav self' = mav self /\
       current_mission self' = current_mission self) /\
    (~ 0 <= index < Z.of_nat (length (waypoints self)) ->
     remove_waypoint index self = (false, self)).
Proof.
  intros index self. unfold remove_waypoint. split.
  - intros Hin. rewrite (proj2 (bounds_exclusive _ _) Hin).
    eexists. split; [reflexivity |].
    cbn [waypoints set_waypoints mav current_mission].
    split; [| split; [| split; [| split; reflexivity]]].
    + rewrite length_delete by (apply lookup_lt_is_Some; lia). lia.
    + intros j Hj. apply list_lookup_delete_lt. exact Hj.
    + intros j Hj. apply list_lookup_delete_ge. exact Hj.
  - intros Hout.
    destruct (Z.leb 0 index && Z.ltb index _) eqn:E; [| reflexivity].
    apply bounds_exclusive in E. contradiction.
Qed.

Lemma remove_waypoint_spec_witness :
  (exists self',
     remove_waypoint 0
       (Planner (station [] true) [takeoff_waypoint; loiter_waypoint] "m")
     = (true, self') /\
     waypoints self' = [loiter_waypoint]) /\
  remove_waypoint 2
    (Planner (station [] true) [takeoff_waypoint; loiter_waypoint] "m")
  = (false,
     Planner (station [] true) [takeoff_waypoint; loiter_waypoint] "m").
Proof.
  split.
  - destruct (proj1 (remove_waypoint_spec 0
                       (Planner (station [] true)
                          [takeoff_waypoint; loiter_waypoint] "m")))
      as (self' & Hrun & _); [cbn; lia |].
    exists self'. split; [exact Hrun |].
    injection Hrun as <-. reflexivity.
  - apply (proj2 (remove_waypoint_spec 2
                    (Planner (station [] true)
                       [takeoff_waypoint; loiter_waypoint] "m"))).
    cbn. lia.
Defined.

(** X21: removing undoes inserting and adding.  After a waypoint was
    inserted at an accepted index, [remove_waypoint] at that index gives
    the planner back as it was; [add_waypoint] answers the number of
    waypoints there were, does what [insert_waypoint] does at that index,
    and is undone by [remove_waypoint] at the index it answered. *)
Theorem remove_undoes_insert :
  forall (index : Z) (wp : Waypoint.t) (self : MissionPlanner),
    (0 <= index <= Z.of_nat (length (waypoints self)) ->
     remove_waypoint index (snd (insert_waypoint index wp self))
     = (true, self)) /\
    fst (add_waypoint wp self) = Z.of_nat (length (waypoints self)) /\
    insert_waypoint (fst (add_waypoint wp self)) wp self
    = (true, snd (add_waypoint wp self)) /\
    remove_waypoint (fst (add_waypoint wp self)) (snd (add_waypoint wp self))
    = (true, self).
Proof.
  intros index wp self.
  assert (Hinv : forall i : Z,
    0 <= i <= Z.of_nat (length (waypoints self)) ->
    remove_waypoint i (snd (insert_waypoint i wp self)) = (true, self)).
  { intros i Hin. unfold insert_waypoint.
    rewrite (proj2 (bounds_inclusive _ _) Hin). cbn [snd].
    unfold remove_waypoint. cbn [waypoints set_waypoints].
    set (l := waypoints self).
    assert (Hlen : length (take (Z.to_nat i) l) = Z.to_nat i)
      by (rewrite length_take; unfold l; lia).
    rewrite length_app, Hlen. cbn [length]. rewrite length_drop.
    rewrite (proj2 (bounds_exclusive i _)) by (fold l in Hin; lia).
    rewrite <- Hlen at 1. rewrite delete_middle, take_drop.
    unfold l. destruct self; reflexivity. }
  assert (Hidx : fst (add_waypoint wp self)
                 = Z.of_nat (length (waypoints self))).
  { unfold add_waypoint. cbn. rewrite length_app. cbn [length]. lia. }
  assert (Hadd : insert_waypoint (Z.of_nat (length (waypoints self))) wp self
                 = (true, snd (add_waypoint wp self))).
  { unfold insert_waypoint, add_waypoint.
    rewrite (proj2 (bounds_inclusive _ _)) by lia.
    rewrite Nat2Z.id, firstn_all, skipn_all. reflexivity. }
  split; [apply Hinv |]. split; [exact Hidx |]. rewrite Hidx.
  split; [exact Hadd |].
  rewrite <- (Hinv (Z.of_nat (length (waypoints self)))) by lia.
  rewrite Hadd. reflexivity.
Qed.

Lemma remove_undoes_insert_witness :
  remove_waypoint 1
    (snd (insert_waypoint 1 loiter_waypoint
            (Planner (station [] true) [takeoff_waypoint] "m")))
  = (true, Planner (station [] true) [takeoff_waypoint] "m").
Proof.
  apply (proj1 (remove_undoes_insert 1 loiter_waypoint
                  (Planner (station [] true) [takeoff_waypoint] "m"))).
  cbn. lia.
Defined.

(** * Names of the mission files *)

Lemma string_length_append :
  forall s t : string,
    String.length (s ++ t) = (String.length s + String.length t)%nat.
Proof.
  intros s t. induction s as [| c s IH]; [reflexivity |].
  change (S (String.length (s ++ t))
          = S (String.length s + String.length t)).
  f_equal. exact IH.
Qed.

Lemma substring_whole :
  forall t : string, substring 0 (String.length t) t = t.
Proof.
  induction t as [| c t IH]; [reflexivity |].
  change (String c (substring 0 (String.length t) t) = String c t).
  f_equal. exact IH.
Qed.

Lemma substring_append :
  forall s t : string,
    substring (String.length s) (String.length t) (s ++ t) = t.
Proof.
  intros s t. induction s as [| c s IH]; [apply substring_whole |].
  exact IH.
Qed.

Lemma endswith_append :
  forall s t : string, endswith (s ++ t) t = true.
Proof.
  intros s t. unfold endswith. rewrite string_length_append.
  replace (String.length s + String.length t - String.length t)%nat
    with (String.length s) by lia.
  rewrite substring_append, String.eqb_refl, andb_true_r.
  apply Nat.leb_le. lia.
Qed.

Lemma append_not_self :
  forall s t : string, t <> "" -> s ++ t <> s.
Proof.
  intros s t Ht E. apply (f_equal String.length) in E.
  rewrite string_length_append in E.
  destruct t as [| c t]; [contradiction | cbn in E; lia].
Qed.

Lemma load_mission_filename_json :
  forall filename : string,
    endswith (load_mission_filename filename) ".json" = true.
Proof.
  intros filename. unfold load_mission_filename.
  destruct (endswith filename ".json") eqn:E; cbn [negb];
    [exact E | apply endswith_append].
Qed.

(** X22: the file names of [save_mission] and [load_mission].  Both
    always end in .json.  For a name that is not empty, saving and loading
    use the same file name, with or without the extension in the argument.
    Saving without a name, or with the empty name, uses the mission name
    followed by .json even when it ends in .json already, so that loading
    by the mission name finds the file saved by default exactly when the
    mission name does not end in .json. *)
Theorem mission_file_names :
  forall (self : MissionPlanner) (filename : option string) (name : string),
    endswith (save_mission_filename self filename) ".json" = true /\
    endswith (load_mission_filename name) ".json" = true /\
    (name <> "" ->
     save_mission_filename self (Some name) = load_mission_filename name) /\
    save_mission_filename self (Some "") = save_mission_filename self None /\
    (save_mission_filename self None
     = load_mission_filename (current_mission self)
     <-> endswith (current_mission self) ".json" = false).
Proof.
  intros self filename name.
  split; [| split; [| split; [| split]]].
  - unfold save_mission_filename.
    destruct filename as [f |]; [| apply endswith_append].
    destruct (negb (py_truthy (VStr f))); [apply endswith_append |].
    fold (load_mission_filename f). apply load_mission_filename_json.
  - apply load_mission_filename_json.
  - intros Hname. unfold save_mission_filename, py_truthy.
    rewrite (proj2 (String.eqb_neq name "") Hname). reflexivity.
  - reflexivity.
  - unfold save_mission_filename, load_mission_filename.
    destruct (endswith (current_mission self) ".json"); cbn [negb].
    + split; [| discriminate]. intros E. exfalso.
      apply (append_not_self (current_mission self) ".json");
        [discriminate | exact E].
    + split; reflexivity.
Qed.

Lemma mission_file_names_witness :
  save_mission_filename (Planner (station [] true) [] "survey") (Some "field")
  = load_mission_filename "field" /\
  save_mission_filename (Planner (station [] true) [] "a.json") None
  <> load_mission_filename "a.json".
Proof.
  destruct (mission_file_names (Planner (station [] true) [] "a.json")
              None "field") as (_ & _ & Hsame & _ & Hdefault).
  split.
  - exact (proj1 (proj2 (proj2 (mission_file_names
             (Planner (station [] true) [] "survey") None "field")))
             ltac:(discriminate)).
  - intros E. apply Hdefault in E. vm_compute in E. discriminate E.
Defined.

(** * Opening the session *)

(** A blocking read passes over the frames of other kinds, on any link. *)
Lemma recv_scan_passes :
  forall (types : list string) (pre : list message) (tail : list rx)
         (lk : mavfile),
    Forall (fun msg => existsb (String.eqb (get_type msg)) types = false)
           pre ->
    exists lk1,
      recv_scan types (map RxFrame pre ++ tail) lk
      = recv_scan types tail lk1 /\
      trace lk1 = (trace lk ++ map Received pre)%list /\
      tx_ok lk1 = tx_ok lk.
Proof.
  intros types pre tail.
  induction pre as [| msg pre IH]; intros lk Hpre.
  - exists lk. split; [reflexivity |]. cbn. rewrite app_nil_r.
    split; reflexivity.
  - inversion Hpre as [| ? ? Hmsg Hrest]; subst.
    cbn [map app recv_scan]. rewrite Hmsg.
    destruct (IH (post_message msg (set_inbox (map RxFrame pre ++ tail) lk))
                Hrest) as (lk1 & Hscan & Htrace & Htx).
    exists lk1. split; [exact Hscan |]. split.
    + rewrite Htrace, trace_post_message. cbn. rewrite <- app_assoc.
      reflexivity.
    + rewrite Htx. destruct msg; reflexivity.
Qed.

Lemma not_heartbeat :
  forall pre : list message,
    Forall (fun msg => get_type msg <> "HEARTBEAT") pre ->
    Forall (fun msg => existsb (String.eqb (get_type msg)) ["HEARTBEAT"]
                       = false) pre.
Proof.
  intros pre Hpre. eapply Forall_impl; [exact Hpre |].
  intros msg Hne. cbn. apply orb_false_iff. split; [| reflexivity].
  apply String.eqb_neq. exact Hne.
Qed.

(** X23: [connect] on a link that opens and delivers a heartbeat.  The
    frames that come before the first HEARTBEAT are read and dropped; the
    call answers True with [connected] set, the time of the last heartbeat
    read from the clock once, and the vehicle's system and component taken
    from the sender attributes of the link object.  The heartbeat itself
    is consumed without being decoded: the telemetry snapshot, armed flag
    and mode included, is what it was before. *)
Theorem connect_on_heartbeat :
  forall (clock : nat -> float) (conn : connection) (h : MavlinkHandler)
         (pre : list message) (base_mode custom_mode : Z) (rest : list rx),
    inbox (link conn)
    = (map RxFrame pre ++ RxFrame (HEARTBEAT base_mode custom_mode) :: rest)%list ->
    Forall (fun msg => get_type msg <> "HEARTBEAT") pre ->
    exists h',
      connect clock (Ok conn) h = Returned true h' /\
      connected h' = true /\
      last_heartbeat h' = clock (time_calls h) /\
      time_calls h' = S (time_calls h) /\
      vehicle_system h' = srcSystem conn /\
      vehicle_component h' = srcComponent conn /\
      telemetry h' = telemetry h /\
      inbox (master h') = rest /\
      trace (master h')
      = (trace (link conn)
         ++ map Received (pre ++ [HEARTBEAT base_mode custom_mode]))%list.
Proof.
  intros clock conn h pre base_mode custom_mode rest Hin Hpre.
  destruct (recv_scan_passes ["HEARTBEAT"] pre
              (RxFrame (HEARTBEAT base_mode custom_mode) :: rest)
              (link conn) (not_heartbeat pre Hpre))
    as (lk1 & Hscan & Htrace & Htx).
  unfold connect, try_except, wait_heartbeat, lift, modify, time_time,
    recv_match, mbind, M_bind, mret, M_ret.
  cbn [master set_master set_param_fetch_recent]. rewrite Hin, Hscan. cbn [recv_scan existsb get_type].
  rewrite String.eqb_refl. cbn [orb].
  eexists. split; [reflexivity |].
  cbn. rewrite Htrace, map_app, app_assoc. repeat split.
Qed.

Lemma connect_on_heartbeat_witness :
  exists h',
    connect clock_101
      (Ok (Connection
             (Mavfile [RxFrame (SYS_STATUS 12600 87);
                       RxFrame (HEARTBEAT 209 4)] [] ∅ true)
             (VInt 255) (VInt 190)))
      (station [] false)
    = Returned true h' /\
    connected h' = true /\
    vehicle_system h' = VInt 255 /\
    mode (telemetry h') = "UNKNOWN".
Proof.
  destruct (connect_on_heartbeat clock_101
              (Connection
                 (Mavfile [RxFrame (SYS_STATUS 12600 87);
                           RxFrame (HEARTBEAT 209 4)] [] ∅ true)
                 (VInt 255) (VInt 190))
              (station [] false) [SYS_STATUS 12600 87] 209 4 [])
    as (h' & Hrun & Hc & _ & _ & Hvs & _ & Ht & _).
  - reflexivity.
  - repeat constructor. discriminate.
  - exists h'. split; [exact Hrun |]. split; [exact Hc |].
    split; [exact Hvs |]. rewrite Ht. reflexivity.
Defined.

(** X24: how [connect] fails.  It never raises.  When the link cannot be
    opened it answers False with [connected] cleared and the handler
    otherwise untouched; when a read fault comes before any heartbeat it
    answers False with [connected] cleared, and the handler keeps the link
    just opened; when neither a heartbeat nor a fault ever comes it waits
    for ever, with [connected] as it was before the call. *)
Theorem connect_failures :
  forall (clock : nat -> float) (opened : result connection)
         (h : MavlinkHandler),
    (forall e h', connect clock opened h <> Raised e h') /\
    (forall e,
       opened = Err e ->
       connect clock opened h = Returned false (set_connected false h)) /\
    (forall conn pre rest,
       opened = Ok conn ->
       inbox (link conn) = (map RxFrame pre ++ RxFault :: rest)%list ->
       Forall (fun msg => get_type msg <> "HEARTBEAT") pre ->
       exists h',
         connect clock opened h = Returned false h' /\
         connected h' = false /\
         inbox (master h') = rest /\
         tx_ok (master h') = tx_ok (link conn)) /\
    (forall conn pre,
       opened = Ok conn ->
       inbox (link conn) = map RxFrame pre ->
       Forall (fun msg => get_type msg <> "HEARTBEAT") pre ->
       exists h',
         connect clock opened h = Blocked h' /\
         connected h' = connected h /\
         inbox (master h') = []).
Proof.
  intros clock opened h. split; [| split; [| split]].
  - intros e h'. unfold connect, try_except.
    match goal with
    | |- match ?body h with _ => _ end <> _ =>
        destruct (body h) as [a h1 | e1 h1 | h1]
    end; discriminate.
  - intros e ->. reflexivity.
  - intros conn pre rest -> Hin Hpre.
    destruct (recv_scan_passes ["HEARTBEAT"] pre (RxFault :: rest)
                (link conn) (not_heartbeat pre Hpre))
      as (lk1 & Hscan & Htrace & Htx).
    unfold connect, try_except, wait_heartbeat, lift, modify, time_time,
      recv_match, mbind, M_bind, mret, M_ret.
    cbn [master set_master set_param_fetch_recent]. rewrite Hin, Hscan. cbn [recv_scan].
    eexists. split; [reflexivity |]. cbn. repeat split. exact Htx.
  - intros conn pre -> Hin Hpre.
    destruct (recv_scan_passes ["HEARTBEAT"] pre [] (link conn)
                (not_heartbeat pre Hpre))
      as (lk1 & Hscan & Htrace & Htx).
    rewrite <- (app_nil_r (map RxFrame pre)) in Hin.
    unfold connect, try_except, wait_heartbeat, lift, modify, time_time,
      recv_match, mbind, M_bind, mret, M_ret.
    cbn [master set_master set_param_fetch_recent]. rewrite Hin, Hscan. cbn [recv_scan].
    eexists. split; [reflexivity |]. cbn. repeat split.
Qed.

Lemma connect_failures_witness :
  exists h',
    connect clock_101
      (Ok (Connection (Mavfile [RxFrame (VFR_HUD 12.5)] [] ∅ true)
             (VInt 255) (VInt 190)))
      (station [] false)
    = Blocked h' /\
    connected h' = false.
Proof.
  destruct (connect_failures clock_101
              (Ok (Connection (Mavfile [RxFrame (VFR_HUD 12.5)] [] ∅ true)
                     (VInt 255) (VInt 190)))
              (station [] false)) as (_ & _ & _ & Hwait).
  destruct (Hwait _ [VFR_HUD 12.5] eq_refl) as (h' & Hrun & Hc & _).
  - reflexivity.
  - repeat constructor. discriminate.
  - exists h'. split; [exact Hrun | exact Hc].
Defined.

(** * Battery and speed *)


